(** * tork: the worker's task handler and the Docker runtime

    A shallow embedding of [Worker.handleTask] (package worker) and of
    [DockerRuntime.Run] / [DockerRuntime.Stop] (package runtime).

    Go code that talks to a collaborator (the broker, a [Runtime], the clock,
    the Docker client) is a program over an explicit state that also emits
    the list of calls it made, in order; the collaborator's replies come from
    the state.  A task reached through a [*task.Task] is a value that the
    program threads and returns. *)

From Stdlib Require Import ZArith Lia.
From stdpp Require Import base option list strings gmap.

Local Open Scope string_scope.
Local Open Scope Z_scope.
Local Open Scope list_scope.

(** ** Programs with state and a trace of calls *)

Definition Prog (S E A : Type) : Type := S -> A * S * list E.

Definition ret {S E A} (a : A) : Prog S E A := fun s => (a, s, []).

Definition bind {S E A B} (m : Prog S E A) (k : A -> Prog S E B) : Prog S E B :=
  fun s =>
    let '(a, s1, tr1) := m s in
    let '(b, s2, tr2) := k a s1 in
    (b, s2, tr1 ++ tr2).

Definition emit {S E} (e : E) : Prog S E unit := fun s => (tt, s, [e]).

Definition result_of {S E A} (r : A * S * list E) : A := r.1.1.
Definition state_of {S E A} (r : A * S * list E) : S := r.1.2.
Definition trace_of {S E A} (r : A * S * list E) : list E := r.2.

(** How many events of a trace satisfy [p]. *)
Definition count {E} (p : E -> bool) (tr : list E) : nat :=
  length (List.filter p tr).

Notation "'let*' x ':=' c 'in' k" := (bind c (fun x => k))
  (at level 10, x pattern, c at level 100, k at level 200, only parsing).

(** ** Package task: the fields the two source files read and write *)

Module task.

(** Modelled from the spec: the task package is not among the sources; the
    lifecycle states are the four of the spec's data model. *)
Inductive State := Scheduled | Running | Completed | Failed.

#[global] Instance State_eq_dec : EqDecision State.
Proof. solve_decision. Defined.

(** Modelled from the spec: how a [State] prints under [%s] is decided in
    the task package; only the rejection message of [handleTask] uses it. *)
Definition State_String (s : State) : string :=
  match s with
  | Scheduled => "SCHEDULED"
  | Running => "RUNNING"
  | Completed => "COMPLETED"
  | Failed => "FAILED"
  end.

(** An instant read from the clock ([time.Time]). *)
Definition Time := Z.

(** The field [State] of the Go struct is [TState] here, since the type
    already has that name. *)
Record Task := mkTask {
  ID : string;
  Image : string;
  CMD : list string;
  Env : gmap string string;
  Memory : Z;
  RestartPolicy : string;
  TState : State;
  StartedAt : option Time;
  CompletedAt : option Time;
  FailedAt : option Time;
  Result : string;
  Error : string
}.

Definition set_TState (s : State) (t : Task) : Task :=
  mkTask (ID t) (Image t) (CMD t) (Env t) (Memory t) (RestartPolicy t)
         s (StartedAt t) (CompletedAt t) (FailedAt t) (Result t) (Error t).
Definition set_StartedAt (x : option Time) (t : Task) : Task :=
  mkTask (ID t) (Image t) (CMD t) (Env t) (Memory t) (RestartPolicy t)
         (TState t) x (CompletedAt t) (FailedAt t) (Result t) (Error t).
Definition set_CompletedAt (x : option Time) (t : Task) : Task :=
  mkTask (ID t) (Image t) (CMD t) (Env t) (Memory t) (RestartPolicy t)
         (TState t) (StartedAt t) x (FailedAt t) (Result t) (Error t).
Definition set_FailedAt (x : option Time) (t : Task) : Task :=
  mkTask (ID t) (Image t) (CMD t) (Env t) (Memory t) (RestartPolicy t)
         (TState t) (StartedAt t) (CompletedAt t) x (Result t) (Error t).
Definition set_Result (x : string) (t : Task) : Task :=
  mkTask (ID t) (Image t) (CMD t) (Env t) (Memory t) (RestartPolicy t)
         (TState t) (StartedAt t) (CompletedAt t) (FailedAt t) x (Error t).
Definition set_Error (x : string) (t : Task) : Task :=
  mkTask (ID t) (Image t) (CMD t) (Env t) (Memory t) (RestartPolicy t)
         (TState t) (StartedAt t) (CompletedAt t) (FailedAt t) (Result t) x.

End task.

(** ** Go's [error] values, with the two constructors of pkg/errors in use *)

Module errors.
Import task.

Inductive error :=
| Opaque (message : string)
    (* an error value handed over by a collaborator *)
| CantStart (s : State)
    (* errors.Errorf("can't start a task in %s state", s) *)
| Wrapf (cause : error) (message : string).
    (* errors.Wrapf(cause, message) *)

(** The method [Error()]: a wrapped error prints its message, a colon and
    the cause. *)
Fixpoint Error (e : error) : string :=
  match e with
  | Opaque m => m
  | CantStart s => "can't start a task in " +:+ State_String s +:+ " state"
  | Wrapf c m => m +:+ ": " +:+ Error c
  end.

(** [InvalidTaskState] is the spec's name for the rejection of [handleTask]. *)
Definition InvalidTaskState (e : error) : Prop :=
  match e with CantStart _ => True | _ => False end.

End errors.

(** ** Package mq: the queue names the handler publishes to *)

Module mq.

Inductive Queue := QUEUE_DEFAULT | QUEUE_STARTED | QUEUE_COMPLETED | QUEUE_ERROR.

#[global] Instance Queue_eq_dec : EqDecision Queue.
Proof. solve_decision. Defined.

End mq.

(** ** Package worker *)

Module worker.
Import task errors mq.

(** What the handler does to the outside, with the reply it got. *)
Inductive Event :=
| Now (now : Time)
| Publish (q : Queue) (snapshot : Task) (reply : option error)
| RunCall (t : Task) (result : string) (err : option error).

Definition is_RunCall (e : Event) : bool :=
  match e with RunCall _ _ _ => true | _ => false end.
Definition is_Publish (e : Event) : bool :=
  match e with Publish _ _ _ => true | _ => false end.
Definition is_Publish_to (q : Queue) (e : Event) : bool :=
  match e with Publish q' _ _ => bool_decide (q' = q) | _ => false end.
Definition is_terminal_Publish (e : Event) : bool :=
  is_Publish_to QUEUE_COMPLETED e || is_Publish_to QUEUE_ERROR e.

Section Handler.
(** The collaborators of a [Worker]: the broker and the runtime it was
    configured with, and the wall clock.  Each reads the task it is
    handed and answers from the state of the outside world. *)
Variable W : Type.
Variable broker_Publish : Queue -> Task -> W -> option error * W.
Variable runtime_Run : Task -> W -> (string * option error) * W.
Variable time_Now : W -> Time * W.

Definition now : Prog W Event Time :=
  fun w => let '(x, w') := time_Now w in (x, w', [Now x]).

Definition publish (q : Queue) (t : Task) : Prog W Event (option error) :=
  fun w => let '(r, w') := broker_Publish q t w in (r, w', [Publish q t r]).

Definition run (t : Task) : Prog W Event (string * option error) :=
  fun w => let '(r, w') := runtime_Run t w in (r, w', [RunCall t r.1 r.2]).

(** [func (w *Worker) handleTask(ctx, t) error]: the task as the call
    leaves it, and the returned error. *)
Definition handleTask (t : Task) : Prog W Event (Task * option error) :=
  if bool_decide (TState t ≠ Scheduled) then
    ret (t, Some (CantStart (TState t)))
  else
    let* started := now in
    let t := set_StartedAt (Some started) t in
    let t := set_TState Running t in
    let* err := publish QUEUE_STARTED t in
    match err with
    | Some e => ret (t, Some e)
    | None =>
        let* (result, err) := run t in
        let* finished := now in
        match err with
        | Some e =>
            let t := set_TState Failed t in
            let t := set_Error (Error e) t in
            let t := set_FailedAt (Some finished) t in
            let* err := publish QUEUE_ERROR t in
            match err with
            | Some e' => ret (t, Some e')
            | None => ret (t, None)
            end
        | None =>
            let t := set_Result result t in
            let t := set_CompletedAt (Some finished) t in
            let t := set_TState Completed t in
            let* err := publish QUEUE_COMPLETED t in
            ret (t, err)
        end
    end.

End Handler.

(** The task as [handleTask] leaves it at each stage. *)
Definition as_running (started : Time) (t : Task) : Task :=
  set_TState Running (set_StartedAt (Some started) t).
Definition as_failed (finished : Time) (e : error) (t : Task) : Task :=
  set_FailedAt (Some finished) (set_Error (Error e) (set_TState Failed t)).
Definition as_completed (finished : Time) (result : string) (t : Task) : Task :=
  set_TState Completed (set_CompletedAt (Some finished) (set_Result result t)).

(** *** The rest of the package: [NewWorker], [collectStats], [Start] *)

(** The interfaces [mq.Broker] and [runtime.Runtime], as the worker sees
    them.  [Subscribe] is only ever handed the worker's own [handleTask]. *)
Record Broker (W : Type) := {
  Broker_Publish : Queue -> Task -> W -> option error * W;
  Broker_Subscribe : Queue -> W -> option error * W
}.
Arguments Broker_Publish {W}.
Arguments Broker_Subscribe {W}.

Record Runtime (W : Type) := {
  Runtime_Run : Task -> W -> (string * option error) * W;
  Runtime_Stop : Task -> W -> option error * W
}.
Arguments Runtime_Run {W}.
Arguments Runtime_Stop {W}.

(** [type Config struct] and [type Worker struct] *)
Record Config (W : Type) := {
  Config_Broker : Broker W;
  Config_Runtime : Runtime W
}.
Arguments Config_Broker {W}.
Arguments Config_Runtime {W}.

Record Worker (W : Type) := {
  Name : string;
  runtime : Runtime W;
  broker : Broker W
}.
Arguments Name {W}.
Arguments runtime {W}.
Arguments broker {W}.

(** The signals [Start] asks for; [os.Interrupt] is [syscall.SIGINT]. *)
Inductive Signal := SIGINT | SIGTERM.
Definition Interrupt : Signal := SIGINT.

(** A [time.Duration], in nanoseconds. *)
Definition Duration := Z.
Definition Minute : Duration := 60 * 1000000000.

(** What [Start] does to the outside. *)
Inductive StartEvent :=
| LogStarting (name : string)
| Subscribed (q : Queue) (reply : option error)
| GoCollectStats
| SignalNotify (sigs : list Signal)
| Received (sig : Signal)
| LogShuttingDown (name : string).

Definition is_Subscribed (e : StartEvent) : bool :=
  match e with Subscribed _ _ => true | _ => false end.
Definition is_GoCollectStats (e : StartEvent) : bool :=
  match e with GoCollectStats => true | _ => false end.
Definition is_Received (e : StartEvent) : bool :=
  match e with Received _ => true | _ => false end.

Section Supervisor.
Variable W : Type.
(** [uuid.NewUUID], the arrival of a signal on [quit], and [getStats] of
    this package, whose file is not among the sources; a CPU percentage is a
    [float64], which is only passed on to the log. *)
Variable uuid_NewUUID : W -> string * W.
Variable receive_signal : W -> Signal * W.
Variable float64 : Type.

Record Stats := { CPUPercent : float64 }.

Variable getStats : W -> (Stats * option error) * W.

(** What one round of [collectStats] does. *)
Inductive StatsEvent :=
| LogStatsError (name : string)
| LogStats (cpu : float64) (name : string)
| Sleep (d : Duration).

Definition is_Sleep (e : StatsEvent) : bool :=
  match e with Sleep _ => true | _ => false end.
Definition is_LogStatsError (e : StatsEvent) : bool :=
  match e with LogStatsError _ => true | _ => false end.
Definition is_LogStats (e : StatsEvent) : bool :=
  match e with LogStats _ _ => true | _ => false end.

(** [func NewWorker(cfg Config) *Worker] *)
Definition NewWorker (cfg : Config W) (w : W) : Worker W * W :=
  let '(uuid, w') := uuid_NewUUID w in
  let name := "worker-" +:+ uuid in
  ({| Name := name; broker := Config_Broker cfg; runtime := Config_Runtime cfg |},
   w').

(** The method value [w.handleTask]. *)
Definition Worker_handleTask (time_Now : W -> Time * W) (wk : Worker W) :=
  handleTask W (Broker_Publish (broker wk)) (Runtime_Run (runtime wk)) time_Now.

(** The body of the [for] loop of [collectStats]. *)
Definition collectStats_round (wk : Worker W) : Prog W StatsEvent unit :=
  let* (s, err) := (fun w => let '(r, w') := getStats w in (r, w', [])) in
  let* _ := match err with
            | Some _ => emit (LogStatsError (Name wk))
            | None => emit (LogStats (CPUPercent s) (Name wk))
            end in
  emit (Sleep (1 * Minute)).

(** [func (w *Worker) collectStats()] never returns; these are its first
    [n] rounds. *)
Fixpoint collectStats_rounds (n : nat) (wk : Worker W) : Prog W StatsEvent unit :=
  match n with
  | O => ret tt
  | S n =>
      let* _ := collectStats_round wk in
      collectStats_rounds n wk
  end.

(** [func (w *Worker) Start() error], which returns once a signal arrived. *)
Definition Start (wk : Worker W) : Prog W StartEvent (option error) :=
  let* _ := emit (LogStarting (Name wk)) in
  let* err := (fun w => let '(r, w') := Broker_Subscribe (broker wk) QUEUE_DEFAULT w in
                        (r, w', [Subscribed QUEUE_DEFAULT r])) in
  match err with
  | Some e => ret (Some (Wrapf e ("error subscribing for queue: " +:+ Name wk)))
  | None =>
      let* _ := emit GoCollectStats in
      let* _ := emit (SignalNotify [Interrupt; SIGINT; SIGTERM]) in
      let* _ := (fun w => let '(sig, w') := receive_signal w in
                          (sig, w', [Received sig])) in
      let* _ := emit (LogShuttingDown (Name wk)) in
      ret None
  end.

End Supervisor.

End worker.

(** ** Package runtime: the Docker runtime *)

Module container.
Record RestartPolicy := { Name : string }.
Record Resources := { Memory : Z }.
Record Config := { Image : string; Env : list string; Cmd : list string }.
Record HostConfig := {
  hcRestartPolicy : RestartPolicy;
  hcResources : Resources;
  PublishAllPorts : bool
}.
End container.

Module types.
Record ContainerLogsOptions := { ShowStdout : bool; ShowStderr : bool }.
Record ContainerRemoveOptions := {
  RemoveVolumes : bool;
  RemoveLinks : bool;
  Force : bool
}.
End types.

Module runtime.
Import task errors.

(** A reader is the bytes its [Read] calls deliver, in order, and what
    comes after the last of them: [None] for [io.EOF], or a read error. *)
Record Stream := { data : list Byte.byte; ending : option error }.

(** An [io.ReadCloser]: a stream, and what [Close] answers. *)
Record ReadCloser := { stream : Stream; close_reply : option error }.

(** [&io.LimitedReader{R: r, N: n}]: once [n] bytes were delivered every
    further [Read] answers [io.EOF] without asking [r]. *)
Definition LimitedReader (r : Stream) (n : nat) : Stream :=
  if (n <=? length (data r))%nat
  then {| data := take n (data r); ending := None |}
  else r.

(** What [ContainerWait]'s two channels give to the [select]. *)
Inductive WaitResult :=
| FromErrCh (err : option error)
| FromStatusCh (StatusCode : Z).

(** The lines the runtime writes to its log. *)
Inductive LogEntry :=
| LogPullError (image : string) (err : error)
| LogCreateError (image : string) (err : error)
| LogCloseError (containerID : string) (err : error)
| LogTaskCompleted (StatusCode : Z) (taskID : string)
| LogRemoveError (containerID : string) (err : error)
| LogAttemptRemove (containerID : string).

(** The calls of [Run] and [Stop], in the order they are made, together
    with the updates of the [tasks] table. *)
Inductive Event :=
| ImagePull (image : string)
| CopyToStdout
| ContainerCreate (cc : container.Config) (hc : container.HostConfig) (name : string)
| TasksStore (taskID containerID : string)
| ContainerStart (containerID : string)
| ContainerLogs (containerID : string) (opts : types.ContainerLogsOptions)
| CloseLogs (reply : option error)
| ContainerWait (containerID : string) (r : WaitResult)
| TasksDelete (taskID : string)
| ContainerRemove (containerID : string) (opts : types.ContainerRemoveOptions)
                  (reply : option error)
| Log (entry : LogEntry).

Definition is_ContainerRemove (e : Event) : bool :=
  match e with ContainerRemove _ _ _ => true | _ => false end.
Definition is_ContainerWait (e : Event) : bool :=
  match e with ContainerWait _ _ => true | _ => false end.

(** The Docker client's methods that the runtime calls, answering from the
    state [W] of the daemon, and the two library calls that consume a
    reader: [io.Copy(os.Stdout, _)] and [stdcopy.StdCopy(buf, buf, _)],
    the latter giving the bytes it wrote to [buf] and its error. *)
Record Backend (W : Type) := {
  client_ImagePull : string -> W -> (option Stream * option error) * W;
  io_Copy_Stdout : Stream -> W -> option error * W;
  client_ContainerCreate :
    container.Config -> container.HostConfig -> string -> W ->
    (string * option error) * W;
  client_ContainerStart : string -> W -> option error * W;
  client_ContainerLogs :
    string -> types.ContainerLogsOptions -> W ->
    (option ReadCloser * option error) * W;
  stdcopy_StdCopy : Stream -> list Byte.byte * option error;
  client_ContainerWait : string -> W -> WaitResult * W;
  client_ContainerRemove :
    string -> types.ContainerRemoveOptions -> W -> option error * W
}.
Arguments client_ImagePull {W}.
Arguments io_Copy_Stdout {W}.
Arguments client_ContainerCreate {W}.
Arguments client_ContainerStart {W}.
Arguments client_ContainerLogs {W}.
Arguments stdcopy_StdCopy {W}.
Arguments client_ContainerWait {W}.
Arguments client_ContainerRemove {W}.

(** [type DockerRuntime struct]: the table from task ID to container ID
    (guarded by [mu], which a single thread of calls does not observe),
    and the daemon behind [client]. *)
Record DockerRuntime (W : Type) := {
  tasks : gmap string string;
  world : W
}.
Arguments tasks {W}.
Arguments world {W}.

(** How a call of [Run] ends: with its two results, or in a panic. *)
Inductive Outcome :=
| Returned (result : string) (err : option error)
| Panicked.

Definition LF : string := String (Ascii.ascii_of_nat 10) EmptyString.

Section Runtime.
Context {W : Type} (b : Backend W).

Abbreviation M := (Prog (DockerRuntime W) Event).

Definition call {A} (f : W -> A * W) (ev : A -> Event) : M A :=
  fun d =>
    let '(a, w') := f (world d) in
    (a, {| tasks := tasks d; world := w' |}, [ev a]).

Definition tasks_lookup (id : string) : M (option string) :=
  fun d => (tasks d !! id, d, []).

Definition tasks_store (id cid : string) : M unit :=
  fun d => (tt, {| tasks := <[id := cid]> (tasks d); world := world d |},
            [TasksStore id cid]).

Definition tasks_delete (id : string) : M unit :=
  fun d => (tt, {| tasks := delete id (tasks d); world := world d |},
            [TasksDelete id]).

Definition log (entry : LogEntry) : M unit := emit (Log entry).

Definition remove_options : types.ContainerRemoveOptions :=
  {| types.RemoveVolumes := true; types.RemoveLinks := false; types.Force := true |}.

(** [func (d *DockerRuntime) Stop(ctx, t) error] *)
Definition Stop (t : Task) : M (option error) :=
  let* found := tasks_lookup (ID t) in
  match found with
  | None => ret None
  | Some containerID =>
      let* _ := tasks_delete (ID t) in
      let* _ := log (LogAttemptRemove containerID) in
      call (client_ContainerRemove b containerID remove_options)
           (ContainerRemove containerID remove_options)
  end.

(** The deferred function of [Run]: [out.Close()], whose error is only
    logged.  Calling it on a nil [out] panics. *)
Definition deferred_close (out : option ReadCloser) (respID : string)
           (o : Outcome) : M Outcome :=
  match out with
  | None => ret Panicked
  | Some rc =>
      let* _ := emit (CloseLogs (close_reply rc)) in
      let* _ := match close_reply rc with
                | Some e => log (LogCloseError respID e)
                | None => ret tt
                end in
      ret o
  end.

(** [Run] from the [StdCopy] call on: reading the bounded log stream,
    waiting for the container, removing it. *)
Definition Run_capture (t : Task) (respID : string) (out : Stream) : M Outcome :=
  let lr := LimitedReader out 1024 in
  let '(buf, err) := stdcopy_StdCopy b lr in
  match err with
  | Some e => ret (Returned "" (Some (Wrapf e "error reading the std out")))
  | None =>
      let* sel := call (client_ContainerWait b respID) (ContainerWait respID) in
      let* stop := match sel with
                   | FromErrCh (Some e) => ret (Some e)
                   | FromErrCh None => ret None
                   | FromStatusCh code =>
                       let* _ := log (LogTaskCompleted code (ID t)) in
                       ret None
                   end in
      match stop with
      | Some e => ret (Returned "" (Some e))
      | None =>
          let* err := Stop t in
          let* _ := match err with
                    | Some e => log (LogRemoveError respID e)
                    | None => ret tt
                    end in
          ret (Returned (String.string_of_list_byte buf) None)
      end
  end.

(** [func (d *DockerRuntime) Run(ctx, t) (string, error)] *)
Definition Run (t : Task) : M Outcome :=
  let* (reader, err) := call (client_ImagePull b (Image t))
                             (fun _ => ImagePull (Image t)) in
  match err with
  | Some e =>
      let* _ := log (LogPullError (Image t) e) in
      ret (Returned "" (Some e))
  | None =>
  match reader with
  | None => ret Panicked
  | Some reader =>
  let* err := call (io_Copy_Stdout b reader) (fun _ => CopyToStdout) in
  match err with
  | Some e => ret (Returned "" (Some e))
  | None =>
  let rp := {| container.Name := RestartPolicy t |} in
  let r := {| container.Memory := Memory t |} in
  let env := (fun nv : string * string => nv.1 +:+ "=" +:+ nv.2)
               <$> map_to_list (Env t) in
  let cc := {| container.Image := Image t;
               container.Env := env;
               container.Cmd := CMD t |} in
  let hc := {| container.hcRestartPolicy := rp;
               container.hcResources := r;
               container.PublishAllPorts := true |} in
  let* (respID, err) := call (client_ContainerCreate b cc hc (ID t))
                             (fun _ => ContainerCreate cc hc (ID t)) in
  match err with
  | Some e =>
      let* _ := log (LogCreateError (Image t) e) in
      ret (Returned "" (Some e))
  | None =>
  let* _ := tasks_store (ID t) respID in
  let* err := call (client_ContainerStart b respID)
                   (fun _ => ContainerStart respID) in
  match err with
  | Some e =>
      ret (Returned "" (Some (Wrapf e
             ("error starting container " +:+ respID +:+ ": "
              +:+ Error e +:+ LF))))
  | None =>
  let opts := {| types.ShowStdout := true; types.ShowStderr := true |} in
  let* (out, err) := call (client_ContainerLogs b respID opts)
                          (fun _ => ContainerLogs respID opts) in
  let* o :=
    match err with
    | Some e =>
        ret (Returned "" (Some (Wrapf e
               ("error getting logs for container " +:+ respID +:+ ": "
                +:+ Error e +:+ LF))))
    | None =>
        match out with
        | None => ret Panicked
        | Some rc => Run_capture t respID (stream rc)
        end
    end in
  deferred_close out respID o
  end end end end end.

End Runtime.

(** The same backend with another [ContainerRemove]. *)
Definition with_ContainerRemove {W} (b : Backend W)
           (f : string -> types.ContainerRemoveOptions -> W -> option error * W)
  : Backend W :=
  {| client_ImagePull := client_ImagePull b;
     io_Copy_Stdout := io_Copy_Stdout b;
     client_ContainerCreate := client_ContainerCreate b;
     client_ContainerStart := client_ContainerStart b;
     client_ContainerLogs := client_ContainerLogs b;
     stdcopy_StdCopy := stdcopy_StdCopy b;
     client_ContainerWait := client_ContainerWait b;
     client_ContainerRemove := f |}.



(** [func NewDockerRuntime()], which returns a runtime or an error, given
    what [client.NewClientWithOpts(client.FromEnv)] answered. *)
Definition NewDockerRuntime {W} (dc : W) (err : option error)
  : option (DockerRuntime W) * option error :=
  match err with
  | Some e => (None, Some e)
  | None => (Some {| tasks := ∅; world := dc |}, None)
  end.

Definition is_Log (e : Event) : bool :=
  match e with Log _ => true | _ => false end.
Definition is_TasksStore (e : Event) : bool :=
  match e with TasksStore _ _ => true | _ => false end.
Definition is_ContainerCreate (e : Event) : bool :=
  match e with ContainerCreate _ _ _ => true | _ => false end.
Definition is_ContainerLogs (e : Event) : bool :=
  match e with ContainerLogs _ _ => true | _ => false end.
Definition is_CloseLogs (e : Event) : bool :=
  match e with CloseLogs _ => true | _ => false end.

(** A trace without its log lines. *)
Definition calls (tr : list Event) : list Event :=
  List.filter (fun e => negb (is_Log e)) tr.

End runtime.

(** ** Package tork: the version *)

Module tork.

Definition Version : string := "0.1.34".

(** [func FormattedVersion() string], for a value of the variable
    [GitCommit], which is ["develop"] unless the build sets it. *)
Definition FormattedVersion (GitCommit : string) : string :=
  Version +:+ " (" +:+ GitCommit +:+ ")".

End tork.

(** ** Concrete collaborators, to run the two models on *)

Module scenario.
Import task errors mq.

Definition t1 : Task :=
  {| ID := "t1"; Image := "alpine"; CMD := ["echo"; "hi"]; Env := ∅;
     Memory := 0; RestartPolicy := "";
     TState := Scheduled; StartedAt := None; CompletedAt := None;
     FailedAt := None; Result := ""; task.Error := "" |}.

(** A broker that is down for the queues of [down], a runtime that always
    answers [reply], and a clock that ticks at every reading. *)
Definition broker_Publish (down : list Queue) (q : Queue) (t : Task) (w : Z)
  : option error * Z :=
  (if bool_decide (q ∈ down) then Some (Opaque "broker unreachable") else None, w).

Definition runtime_Run (reply : string * option error) (t : Task) (w : Z)
  : (string * option error) * Z := (reply, w).

Definition time_Now (w : Z) : Time * Z := (w, w + 1).

Definition handleTask (down : list Queue) (reply : string * option error) :=
  worker.handleTask Z (broker_Publish down) (runtime_Run reply) time_Now.

(** Docker's multiplexed log stream: frames of an eight-byte header (the
    stream type, three zero bytes, the payload size in big endian) and a
    payload.  A frame that the stream ends in the middle of is dropped. *)
Definition frame_size (h : list Byte.byte) : N :=
  let b i := Byte.to_N (nth i h Byte.x00) in
  (((b 4%nat * 256 + b 5%nat) * 256 + b 6%nat) * 256 + b 7%nat)%N.

Fixpoint demux (fuel : nat) (s : list Byte.byte) (ending : option error)
  : list Byte.byte * option error :=
  match fuel with
  | O => ([], None)
  | S fuel =>
      if (length s <? 8)%nat then ([], ending)
      else
        let ty := Byte.to_N (nth 0 s Byte.x00) in
        if (3 <? ty)%N then ([], Some (Opaque "Unrecognized input header"))
        else
          let n := frame_size s in
          let rest := drop 8 s in
          if (N.of_nat (length rest) <? n)%N then ([], ending)
          else if (ty =? 3)%N then ([], Some (Opaque "error from daemon in stream"))
          else
            let '(w, e) := demux fuel (drop (N.to_nat n) rest) ending in
            (take (N.to_nat n) rest ++ w, e)
  end.

Definition StdCopy (s : runtime.Stream) : list Byte.byte * option error :=
  demux (S (length (runtime.data s))) (runtime.data s) (runtime.ending s).

(** A daemon without state of its own: every call but the three given ones
    succeeds, and a created container is called ["c-" + name]. *)
Definition backend (logs : option runtime.ReadCloser * option error)
           (wait : runtime.WaitResult) (remove : option error)
  : runtime.Backend unit :=
  {| runtime.client_ImagePull := fun _ w =>
       (Some {| runtime.data := []; runtime.ending := None |}, None, w);
     runtime.io_Copy_Stdout := fun _ w => (None, w);
     runtime.client_ContainerCreate := fun _ _ name w => ("c-" +:+ name, None, w);
     runtime.client_ContainerStart := fun _ w => (None, w);
     runtime.client_ContainerLogs := fun _ _ w => (logs, w);
     runtime.stdcopy_StdCopy := StdCopy;
     runtime.client_ContainerWait := fun _ w => (wait, w);
     runtime.client_ContainerRemove := fun _ _ w => (remove, w) |}.

Definition fresh : runtime.DockerRuntime unit :=
  {| runtime.tasks := ∅; runtime.world := tt |}.

(** One stdout frame carrying ["hi\n"]. *)
Definition hi_frame : list Byte.byte :=
  [Byte.x01; Byte.x00; Byte.x00; Byte.x00; Byte.x00; Byte.x00; Byte.x00; Byte.x03;
   Byte.x68; Byte.x69; Byte.x0a].

Definition logs_of (bytes : list Byte.byte) : option runtime.ReadCloser * option error :=
  (Some {| runtime.stream := {| runtime.data := bytes; runtime.ending := None |};
           runtime.close_reply := None |}, None).

(** One stdout frame with a payload of 2000 bytes ['x']. *)
Definition big_frame : list Byte.byte :=
  [Byte.x01; Byte.x00; Byte.x00; Byte.x00; Byte.x00; Byte.x00; Byte.x07; Byte.xd0]
    ++ replicate 2000 Byte.x78.


(** The container prints ["hi\n"], then waiting for it fails. *)
Definition wait_error_run :=
  runtime.Run (backend (logs_of hi_frame)
                 (runtime.FromErrCh (Some (Opaque "wait failed"))) None)
              t1 fresh.

(** A broker that answers [sub] to a subscription, a runtime whose [Stop]
    does nothing, an identifier source, a signal, and statistics that
    cannot be collected at odd instants. *)
Definition broker (down : list Queue) (sub : option error) : worker.Broker Z :=
  {| worker.Broker_Publish := broker_Publish down;
     worker.Broker_Subscribe := fun _ w => (sub, w) |}.

Definition config (down : list Queue) (sub : option error)
           (reply : string * option error) : worker.Config Z :=
  {| worker.Config_Broker := broker down sub;
     worker.Config_Runtime :=
       {| worker.Runtime_Run := runtime_Run reply;
          worker.Runtime_Stop := fun _ w => (None, w) |} |}.

Definition uuid_NewUUID (w : Z) : string * Z := ("4b3c", w).

Definition receive_signal (w : Z) : worker.Signal * Z := (worker.SIGTERM, w).

Definition getStats (w : Z) : (worker.Stats Z * option error) * Z :=
  ({| worker.CPUPercent := w |},
   if Z.even w then None else Some (Opaque "no stats"), w + 1).

(** A runtime that tracks two tasks. *)
Definition two_tracked : runtime.DockerRuntime unit :=
  {| runtime.tasks := {["t1" := "c-old"; "t2" := "c-t2"]}; runtime.world := tt |}.

(** A task with two environment variables. *)
Definition t_env : Task :=
  {| ID := "t3"; Image := "alpine"; CMD := ["env"];
     Env := {["A" := "1"; "B" := "2"]};
     Memory := 1024; RestartPolicy := "no";
     TState := Scheduled; StartedAt := None; CompletedAt := None;
     FailedAt := None; Result := ""; task.Error := "" |}.

(** A daemon like [backend] whose [ContainerStart] fails. *)
Definition backend_start_fails : runtime.Backend unit :=
  {| runtime.client_ImagePull := fun _ w =>
       (Some {| runtime.data := []; runtime.ending := None |}, None, w);
     runtime.io_Copy_Stdout := fun _ w => (None, w);
     runtime.client_ContainerCreate := fun _ _ name w => ("c-" +:+ name, None, w);
     runtime.client_ContainerStart := fun _ w => (Some (Opaque "no such image"), w);
     runtime.client_ContainerLogs := fun _ _ w => (logs_of hi_frame, w);
     runtime.stdcopy_StdCopy := StdCopy;
     runtime.client_ContainerWait := fun _ w => (runtime.FromStatusCh 0, w);
     runtime.client_ContainerRemove := fun _ _ w => (None, w) |}.

End scenario.

(** * Properties *)

Import task errors mq.


Example scenario_hi :
  result_of (runtime.Run (scenario.backend (scenario.logs_of scenario.hi_frame)
                            (runtime.FromStatusCh 0) None) scenario.t1 scenario.fresh)
  = runtime.Returned ("hi" +:+ runtime.LF) None.
Proof. vm_compute. reflexivity. Qed.

(** ** The task handler *)

Section HandlerProperties.
Variable W : Type.
Variable broker_Publish : Queue -> Task -> W -> option error * W.
Variable runtime_Run : Task -> W -> (string * option error) * W.
Variable time_Now : W -> Time * W.

Let handle := worker.handleTask W broker_Publish runtime_Run time_Now.

Ltac step_handler :=
  unfold handle, worker.handleTask, bind, ret,
    worker.now, worker.publish, worker.run.

Lemma handle_unscheduled (t : Task) (w : W) :
  TState t ≠ Scheduled ->
  handle t w = ((t, Some (CantStart (TState t))), w, []).
Proof.
  intros Hs. step_handler.
  rewrite bool_decide_eq_true_2 by exact Hs. reflexivity.
Qed.

Lemma handle_started_fails (t : Task) (w w1 w2 : W) (started : Time) (e : error) :
  TState t = Scheduled ->
  time_Now w = (started, w1) ->
  broker_Publish QUEUE_STARTED (worker.as_running started t) w1 = (Some e, w2) ->
  handle t w =
    ((worker.as_running started t, Some e), w2,
     [worker.Now started;
      worker.Publish QUEUE_STARTED (worker.as_running started t) (Some e)]).
Proof.
  intros Hs Hn Hp. step_handler.
  rewrite bool_decide_eq_false_2 by (intros H; apply H; exact Hs).
  rewrite Hn. fold (worker.as_running started t). rewrite Hp. reflexivity.
Qed.

Lemma handle_run_fails (t : Task) (w w1 w2 w3 w4 w5 : W) (started finished : Time)
      (result : string) (e : error) (perr : option error) :
  TState t = Scheduled ->
  time_Now w = (started, w1) ->
  broker_Publish QUEUE_STARTED (worker.as_running started t) w1 = (None, w2) ->
  runtime_Run (worker.as_running started t) w2 = ((result, Some e), w3) ->
  time_Now w3 = (finished, w4) ->
  broker_Publish QUEUE_ERROR
    (worker.as_failed finished e (worker.as_running started t)) w4 = (perr, w5) ->
  handle t w =
    ((worker.as_failed finished e (worker.as_running started t), perr), w5,
     [worker.Now started;
      worker.Publish QUEUE_STARTED (worker.as_running started t) None;
      worker.RunCall (worker.as_running started t) result (Some e);
      worker.Now finished;
      worker.Publish QUEUE_ERROR
        (worker.as_failed finished e (worker.as_running started t)) perr]).
Proof.
  intros Hs Hn Hp Hr Hn' Hp'. step_handler.
  rewrite bool_decide_eq_false_2 by (intros H; apply H; exact Hs).
  rewrite Hn. fold (worker.as_running started t). rewrite Hp, Hr, Hn'.
  fold (worker.as_failed finished e (worker.as_running started t)).
  rewrite Hp'. destruct perr; reflexivity.
Qed.

Lemma handle_run_succeeds (t : Task) (w w1 w2 w3 w4 w5 : W) (started finished : Time)
      (result : string) (perr : option error) :
  TState t = Scheduled ->
  time_Now w = (started, w1) ->
  broker_Publish QUEUE_STARTED (worker.as_running started t) w1 = (None, w2) ->
  runtime_Run (worker.as_running started t) w2 = ((result, None), w3) ->
  time_Now w3 = (finished, w4) ->
  broker_Publish QUEUE_COMPLETED
    (worker.as_completed finished result (worker.as_running started t)) w4
    = (perr, w5) ->
  handle t w =
    ((worker.as_completed finished result (worker.as_running started t), perr), w5,
     [worker.Now started;
      worker.Publish QUEUE_STARTED (worker.as_running started t) None;
      worker.RunCall (worker.as_running started t) result None;
      worker.Now finished;
      worker.Publish QUEUE_COMPLETED
        (worker.as_completed finished result (worker.as_running started t)) perr]).
Proof.
  intros Hs Hn Hp Hr Hn' Hp'. step_handler.
  rewrite bool_decide_eq_false_2 by (intros H; apply H; exact Hs).
  rewrite Hn. fold (worker.as_running started t). rewrite Hp, Hr, Hn'.
  fold (worker.as_completed finished result (worker.as_running started t)).
  rewrite Hp'. reflexivity.
Qed.

(** The calls of one [handleTask], whatever the collaborators answer. *)
Lemma handle_trace_shape (t : Task) (w : W) :
  trace_of (handle t w) = []
  \/ (exists started snap e,
        trace_of (handle t w) =
          [worker.Now started; worker.Publish QUEUE_STARTED snap (Some e)])
  \/ (exists started snap result err finished q snap' reply,
        (q = QUEUE_COMPLETED \/ q = QUEUE_ERROR) /\
        trace_of (handle t w) =
          [worker.Now started; worker.Publish QUEUE_STARTED snap None;
           worker.RunCall snap result err; worker.Now finished;
           worker.Publish q snap' reply]).
Proof.
  step_handler. case_bool_decide as Hs; [left; reflexivity | right].
  destruct (time_Now w) as [started w1].
  destruct (broker_Publish _ _ w1) as [[e|] w2]; [left; simpl; eauto | right].
  destruct (runtime_Run _ w2) as [[result err] w3].
  destruct (time_Now w3) as [finished w4].
  destruct err as [e|].
  - destruct (broker_Publish QUEUE_ERROR _ w4) as [[e'|] w5]; simpl;
      repeat eexists; eauto.
  - destruct (broker_Publish QUEUE_COMPLETED _ w4) as [reply w5]; simpl;
      repeat eexists; eauto.
Qed.

(** C1: a task that is not Scheduled is rejected with InvalidTaskState; the
    handler calls neither the broker nor the runtime (nor the clock), the
    outside world is as before, and the task is returned with every field
    unchanged. *)
Theorem handleTask_rejects_unscheduled (t : Task) (w : W) :
  TState t ≠ Scheduled ->
  exists e, InvalidTaskState e /\ handle t w = ((t, Some e), w, []).
Proof.
  intros Hs. exists (CantStart (TState t)). split; [exact I |].
  apply handle_unscheduled, Hs.
Qed.

(** C2: for a Scheduled task whose publish to the started queue fails with
    [e], the handler returns [e] itself and the runtime is never called. *)
Theorem handleTask_started_publish_error
        (t : Task) (w w1 w2 : W) (started : Time) (e : error) :
  TState t = Scheduled ->
  time_Now w = (started, w1) ->
  broker_Publish QUEUE_STARTED (worker.as_running started t) w1 = (Some e, w2) ->
  (result_of (handle t w)).2 = Some e /\
  count worker.is_RunCall (trace_of (handle t w)) = 0%nat.
Proof.
  intros Hs Hn Hp. rewrite (handle_started_fails t w w1 w2 started e Hs Hn Hp).
  split; reflexivity.
Qed.

(** C3: for a Scheduled task whose started publish succeeds and whose run
    fails with [e], the handler leaves the task Failed, with [Error] the
    message of [e] and [FailedAt] the clock reading made after the run; it
    publishes that task to the error queue and returns what that publish
    answered: its error, or none. *)
Theorem handleTask_runtime_error
        (t : Task) (w w1 w2 w3 w4 w5 : W) (started finished : Time)
        (result : string) (e : error) (perr : option error) :
  TState t = Scheduled ->
  time_Now w = (started, w1) ->
  broker_Publish QUEUE_STARTED (worker.as_running started t) w1 = (None, w2) ->
  runtime_Run (worker.as_running started t) w2 = ((result, Some e), w3) ->
  time_Now w3 = (finished, w4) ->
  broker_Publish QUEUE_ERROR
    (worker.as_failed finished e (worker.as_running started t)) w4 = (perr, w5) ->
  let t' := (result_of (handle t w)).1 in
  TState t' = Failed /\
  task.Error t' = errors.Error e /\
  FailedAt t' = Some finished /\
  (result_of (handle t w)).2 = perr /\
  trace_of (handle t w) =
    [worker.Now started;
     worker.Publish QUEUE_STARTED (worker.as_running started t) None;
     worker.RunCall (worker.as_running started t) result (Some e);
     worker.Now finished;
     worker.Publish QUEUE_ERROR t' perr].
Proof.
  intros Hs Hn Hp Hr Hn' Hp'.
  rewrite (handle_run_fails t w w1 w2 w3 w4 w5 started finished result e perr
             Hs Hn Hp Hr Hn' Hp').
  simpl. repeat split; reflexivity.
Qed.

(** C4: for a Scheduled task whose started publish succeeds and whose run
    returns [result] without error, the handler sets [Result] to it,
    [CompletedAt] to the clock reading made after the run and the state to
    Completed, publishes that task to the completed queue, and returns
    exactly what that publish answered. *)
Theorem handleTask_runtime_success
        (t : Task) (w w1 w2 w3 w4 w5 : W) (started finished : Time)
        (result : string) (perr : option error) :
  TState t = Scheduled ->
  time_Now w = (started, w1) ->
  broker_Publish QUEUE_STARTED (worker.as_running started t) w1 = (None, w2) ->
  runtime_Run (worker.as_running started t) w2 = ((result, None), w3) ->
  time_Now w3 = (finished, w4) ->
  broker_Publish QUEUE_COMPLETED
    (worker.as_completed finished result (worker.as_running started t)) w4
    = (perr, w5) ->
  let t' := (result_of (handle t w)).1 in
  Result t' = result /\
  CompletedAt t' = Some finished /\
  TState t' = Completed /\
  (result_of (handle t w)).2 = perr /\
  trace_of (handle t w) =
    [worker.Now started;
     worker.Publish QUEUE_STARTED (worker.as_running started t) None;
     worker.RunCall (worker.as_running started t) result None;
     worker.Now finished;
     worker.Publish QUEUE_COMPLETED t' perr].
Proof.
  intros Hs Hn Hp Hr Hn' Hp'.
  rewrite (handle_run_succeeds t w w1 w2 w3 w4 w5 started finished result perr
             Hs Hn Hp Hr Hn' Hp').
  simpl. repeat split; reflexivity.
Qed.

(** C8: wherever the runtime is called in the trace of one [handleTask],
    a successful publish to the started queue lies before the call and no
    terminal publish does; after the call exactly one publish to the
    completed or the error queue is made, and the runtime is not called a
    second time. *)
Theorem handleTask_ordering (t : Task) (w : W) (pre post : list worker.Event)
        (ev : worker.Event) :
  trace_of (handle t w) = pre ++ ev :: post ->
  worker.is_RunCall ev = true ->
  (exists snap, In (worker.Publish QUEUE_STARTED snap None) pre) /\
  count worker.is_terminal_Publish pre = 0%nat /\
  count worker.is_terminal_Publish post = 1%nat /\
  count worker.is_RunCall (pre ++ post) = 0%nat.
Proof.
  intros Htr Hev.
  destruct (handle_trace_shape t w) as [H | [H | H]].
  - rewrite H in Htr. destruct pre; discriminate.
  - destruct H as (started & snap & e & H). rewrite H in Htr.
    destruct pre as [|? [|? [|? ?]]]; simpl in Htr; simplify_eq;
      simpl in Hev; discriminate.
  - destruct H as (started & snap & result & err & finished & q & snap' & reply
                   & Hq & H).
    rewrite H in Htr.
    destruct pre as [|? [|? [|? [|? [|? [|? ?]]]]]]; simpl in Htr; simplify_eq;
      simpl in Hev; try discriminate.
    split; [exists snap; right; left; reflexivity |].
    destruct Hq; subst q; repeat split; reflexivity.
Qed.

(** C9: when the started publish fails, the error comes back but the task
    does not: it was handed to the broker already Running and with
    [StartedAt] set, after the clock was read, and that is how the call
    leaves it; it differs from the task that came in. *)
Theorem handleTask_started_publish_error_keeps_mutation
        (t : Task) (w w1 w2 : W) (started : Time) (e : error) :
  TState t = Scheduled ->
  time_Now w = (started, w1) ->
  broker_Publish QUEUE_STARTED (worker.as_running started t) w1 = (Some e, w2) ->
  let t' := (result_of (handle t w)).1 in
  (result_of (handle t w)).2 = Some e /\
  TState t' = Running /\
  StartedAt t' = Some started /\
  t' = worker.as_running started t /\
  t' ≠ t /\
  trace_of (handle t w) =
    [worker.Now started; worker.Publish QUEUE_STARTED t' (Some e)].
Proof.
  intros Hs Hn Hp. rewrite (handle_started_fails t w w1 w2 started e Hs Hn Hp).
  simpl. repeat split; try reflexivity.
  intros Heq. apply (f_equal TState) in Heq. simpl in Heq. congruence.
Qed.

End HandlerProperties.

(** The handler's theorems at the collaborators of [scenario]. *)

Lemma handleTask_rejects_unscheduled_witness :
  exists e, InvalidTaskState e /\
    scenario.handleTask [] ("", None) (set_TState Running scenario.t1) 0
    = ((set_TState Running scenario.t1, Some e), 0, []).
Proof.
  apply (handleTask_rejects_unscheduled Z (scenario.broker_Publish [])
           (scenario.runtime_Run ("", None)) scenario.time_Now
           (set_TState Running scenario.t1) 0).
  simpl. discriminate.
Defined.

Lemma handleTask_started_publish_error_witness :
  (result_of (scenario.handleTask [QUEUE_STARTED] ("", None) scenario.t1 0)).2
    = Some (Opaque "broker unreachable") /\
  count worker.is_RunCall
    (trace_of (scenario.handleTask [QUEUE_STARTED] ("", None) scenario.t1 0)) = 0%nat.
Proof.
  apply (handleTask_started_publish_error Z (scenario.broker_Publish [QUEUE_STARTED])
           (scenario.runtime_Run ("", None)) scenario.time_Now
           scenario.t1 0 1 1 0 (Opaque "broker unreachable")); reflexivity.
Defined.

Lemma handleTask_runtime_error_witness :
  let r := scenario.handleTask [] ("", Some (Opaque "pull failed")) scenario.t1 0 in
  TState (result_of r).1 = Failed /\
  task.Error (result_of r).1 = "pull failed" /\
  FailedAt (result_of r).1 = Some 1 /\
  (result_of r).2 = None /\
  trace_of r =
    [worker.Now 0;
     worker.Publish QUEUE_STARTED (worker.as_running 0 scenario.t1) None;
     worker.RunCall (worker.as_running 0 scenario.t1) "" (Some (Opaque "pull failed"));
     worker.Now 1;
     worker.Publish QUEUE_ERROR (result_of r).1 None].
Proof.
  apply (handleTask_runtime_error Z (scenario.broker_Publish [])
           (scenario.runtime_Run ("", Some (Opaque "pull failed"))) scenario.time_Now
           scenario.t1 0 1 1 1 2 2 0 1 "" (Opaque "pull failed") None); reflexivity.
Defined.

Lemma handleTask_runtime_success_witness :
  let r := scenario.handleTask [] ("hi", None) scenario.t1 0 in
  Result (result_of r).1 = "hi" /\
  CompletedAt (result_of r).1 = Some 1 /\
  TState (result_of r).1 = Completed /\
  (result_of r).2 = None /\
  trace_of r =
    [worker.Now 0;
     worker.Publish QUEUE_STARTED (worker.as_running 0 scenario.t1) None;
     worker.RunCall (worker.as_running 0 scenario.t1) "hi" None;
     worker.Now 1;
     worker.Publish QUEUE_COMPLETED (result_of r).1 None].
Proof.
  apply (handleTask_runtime_success Z (scenario.broker_Publish [])
           (scenario.runtime_Run ("hi", None)) scenario.time_Now
           scenario.t1 0 1 1 1 2 2 0 1 "hi" None); reflexivity.
Defined.

Lemma handleTask_ordering_witness :
  (exists snap,
      In (worker.Publish QUEUE_STARTED snap None)
         (take 2 (trace_of (scenario.handleTask [] ("hi", None) scenario.t1 0)))) /\
  count worker.is_terminal_Publish
    (take 2 (trace_of (scenario.handleTask [] ("hi", None) scenario.t1 0))) = 0%nat /\
  count worker.is_terminal_Publish
    (drop 3 (trace_of (scenario.handleTask [] ("hi", None) scenario.t1 0))) = 1%nat /\
  count worker.is_RunCall
    (take 2 (trace_of (scenario.handleTask [] ("hi", None) scenario.t1 0)) ++
     drop 3 (trace_of (scenario.handleTask [] ("hi", None) scenario.t1 0))) = 0%nat.
Proof.
  apply (handleTask_ordering Z (scenario.broker_Publish [])
           (scenario.runtime_Run ("hi", None)) scenario.time_Now scenario.t1 0
           (take 2 (trace_of (scenario.handleTask [] ("hi", None) scenario.t1 0)))
           (drop 3 (trace_of (scenario.handleTask [] ("hi", None) scenario.t1 0)))
           (worker.RunCall (worker.as_running 0 scenario.t1) "hi" None));
    reflexivity.
Defined.

Lemma handleTask_started_publish_error_keeps_mutation_witness :
  let r := scenario.handleTask [QUEUE_STARTED] ("", None) scenario.t1 0 in
  (result_of r).2 = Some (Opaque "broker unreachable") /\
  TState (result_of r).1 = Running /\
  StartedAt (result_of r).1 = Some 0 /\
  (result_of r).1 = worker.as_running 0 scenario.t1 /\
  (result_of r).1 ≠ scenario.t1 /\
  trace_of r =
    [worker.Now 0;
     worker.Publish QUEUE_STARTED (result_of r).1 (Some (Opaque "broker unreachable"))].
Proof.
  apply (handleTask_started_publish_error_keeps_mutation Z
           (scenario.broker_Publish [QUEUE_STARTED])
           (scenario.runtime_Run ("", None)) scenario.time_Now
           scenario.t1 0 1 1 0 (Opaque "broker unreachable")); reflexivity.
Defined.

(** ** The Docker runtime *)

Section RuntimeProperties.
Import runtime.
Context {W : Type}.
Implicit Types (b : Backend W) (d : DockerRuntime W) (t : Task).

Ltac step_runtime :=
  unfold Stop, call, tasks_lookup, tasks_store, tasks_delete, log, emit,
    bind, ret.

Lemma Stop_untracked b t d :
  tasks d !! ID t = None -> Stop b t d = (None, d, []).
Proof. intros H. step_runtime. rewrite H. reflexivity. Qed.

Lemma Stop_tracked b t d (cid : string) (r : option error) (w' : W) :
  tasks d !! ID t = Some cid ->
  client_ContainerRemove b cid remove_options (world d) = (r, w') ->
  Stop b t d =
    (r, {| tasks := delete (ID t) (tasks d); world := w' |},
     [TasksDelete (ID t); Log (LogAttemptRemove cid);
      ContainerRemove cid remove_options r]).
Proof. intros H Hr. step_runtime. rewrite H. simpl. rewrite Hr. reflexivity. Qed.

Lemma Stop_forgets b t d : tasks (state_of (Stop b t d)) !! ID t = None.
Proof.
  destruct (tasks d !! ID t) as [cid|] eqn:H.
  - destruct (client_ContainerRemove b cid remove_options (world d)) as [r w'] eqn:Hr.
    rewrite (Stop_tracked b t d cid r w' H Hr). apply lookup_delete_eq.
  - rewrite (Stop_untracked b t d H). exact H.
Qed.


Lemma LimitedReader_idemp (s : Stream) (n : nat) :
  LimitedReader (LimitedReader s n) n = LimitedReader s n.
Proof.
  unfold LimitedReader. destruct (n <=? length (data s))%nat eqn:Hn; simpl.
  - apply Nat.leb_le in Hn.
    rewrite length_take, Nat.min_l by exact Hn. rewrite Nat.leb_refl.
    rewrite take_take, Nat.min_id. reflexivity.
  - rewrite Hn. reflexivity.
Qed.

(** C6: [Stop] on a task whose ID is not tracked calls nothing, changes
    nothing and returns no error; and after a [Run] for a task followed by
    a [Stop], however the [Run] ended, the table has no entry for the
    task's ID. *)
Theorem Stop_idempotent b t d :
  (tasks d !! ID t = None -> Stop b t d = (None, d, [])) /\
  tasks (state_of (Stop b t (state_of (Run b t d)))) !! ID t = None.
Proof. split; [apply Stop_untracked | apply Stop_forgets]. Qed.

(** C10: [Stop] on a tracked ID deletes the entry and only then asks the
    backend to remove the container; whatever the backend answers is
    returned, the ID is no longer tracked, and a further [Stop] for that
    ID calls nothing and returns no error. *)
Theorem Stop_untracks_before_removal b t d (cid : string) (r : option error) (w' : W) :
  tasks d !! ID t = Some cid ->
  client_ContainerRemove b cid remove_options (world d) = (r, w') ->
  result_of (Stop b t d) = r /\
  trace_of (Stop b t d) =
    [TasksDelete (ID t); Log (LogAttemptRemove cid);
     ContainerRemove cid remove_options r] /\
  tasks (state_of (Stop b t d)) !! ID t = None /\
  forall t', ID t' = ID t ->
    Stop b t' (state_of (Stop b t d)) = (None, state_of (Stop b t d), []).
Proof.
  intros H Hr. rewrite (Stop_tracked b t d cid r w' H Hr).
  repeat split.
  - apply lookup_delete_eq.
  - intros t' Hid. apply Stop_untracked. rewrite Hid. apply lookup_delete_eq.
Qed.

(** One backend call at a time, in the order [Run] makes them. *)
Ltac call_step :=
  match goal with
  | |- context [client_ImagePull ?b ?i ?w] =>
      destruct (client_ImagePull b i w) as [[[?|] [?|]] ?] eqn:?
  | |- context [io_Copy_Stdout ?b ?s ?w] =>
      destruct (io_Copy_Stdout b s w) as [[?|] ?] eqn:?
  | |- context [client_ContainerCreate ?b ?c ?h ?n ?w] =>
      destruct (client_ContainerCreate b c h n w) as [[? [?|]] ?] eqn:?
  | |- context [client_ContainerStart ?b ?c ?w] =>
      destruct (client_ContainerStart b c w) as [[?|] ?] eqn:?
  | |- context [client_ContainerLogs ?b ?c ?o ?w] =>
      destruct (client_ContainerLogs b c o w) as [[[?|] [?|]] ?] eqn:?
  | |- context [stdcopy_StdCopy ?b ?s] =>
      destruct (stdcopy_StdCopy b s) as [? [?|]] eqn:?
  | |- context [client_ContainerWait ?b ?c ?w] =>
      destruct (client_ContainerWait b c w) as [[[?|]|?] ?] eqn:?
  | |- context [client_ContainerRemove ?b ?c ?o ?w] =>
      destruct (client_ContainerRemove b c o w) as [[?|] ?] eqn:?
  | |- context [close_reply ?rc] =>
      destruct (close_reply rc) as [?|] eqn:?
  end;
  simpl; rewrite ?lookup_insert_eq, ?LimitedReader_idemp; simpl.

Ltac run_cases :=
  unfold result_of, state_of, trace_of,
    Run, Run_capture, deferred_close, Stop, call, tasks_lookup,
    tasks_store, tasks_delete, log, emit, bind, ret; simpl;
  repeat call_step.



Lemma Run_result_ignores_removal b t d
      (f : string -> types.ContainerRemoveOptions -> W -> option error * W) :
  result_of (Run (with_ContainerRemove b f) t d) = result_of (Run b t d).
Proof.
  run_cases; try reflexivity.
  all: match goal with
       | |- context [?g ?c remove_options ?w] =>
           destruct (g c remove_options w) as [[?|] ?]
       end; reflexivity.
Qed.


Lemma Run_after_wait b t d (cid : string) (sel : WaitResult) :
  In (ContainerWait cid sel) (trace_of (Run b t d)) ->
  match sel with
  | FromErrCh (Some e) =>
      result_of (Run b t d) = Returned "" (Some e) /\
      count is_ContainerRemove (trace_of (Run b t d)) = 0%nat /\
      tasks (state_of (Run b t d)) !! ID t = Some cid
  | _ =>
      exists pre mid post reply buf,
        trace_of (Run b t d) =
          pre ++ ContainerWait cid sel :: mid ++
            TasksDelete (ID t) :: Log (LogAttemptRemove cid) ::
            ContainerRemove cid remove_options reply :: post /\
        result_of (Run b t d) = Returned buf None /\
        count is_ContainerRemove post = 0%nat /\
        (forall e, reply = Some e -> In (Log (LogRemoveError cid e)) post)
  end.
Proof.
  run_cases.
  all: intros Hin; simpl in Hin.
  all: repeat (destruct Hin as [Hin | Hin]; [try discriminate |]);
    try contradiction.
  all: injection Hin as <- <-.
  all: try (repeat split; reflexivity).
  all: first
    [ eexists [_; _; _; _; _; _], [], _, _, _;
      split; [reflexivity |]
    | eexists [_; _; _; _; _; _], [_], _, _, _;
      split; [reflexivity |] ].
  all: split; [reflexivity |]; split; [reflexivity |].
  all: intros e' He; simplify_eq; simpl; auto.
Qed.

(** C5 as the code has it: once the wait step has resolved with a status
    event or with a nil error, [Run] goes on to [Stop]: the entry is
    deleted and the backend is asked to remove the container; what the
    removal answers is at most logged and [Run] returns its result without
    error; no answer of the removal ever changes what [Run] returns.  When
    the wait step yields an error, [Run] returns it at once: no removal is
    asked for and the task stays tracked. *)
Theorem Run_cleanup_after_wait b t d :
  (forall f, result_of (Run (with_ContainerRemove b f) t d) = result_of (Run b t d)) /\
  (forall cid sel,
      In (ContainerWait cid sel) (trace_of (Run b t d)) ->
      match sel with
      | FromErrCh (Some e) =>
          result_of (Run b t d) = Returned "" (Some e) /\
          count is_ContainerRemove (trace_of (Run b t d)) = 0%nat /\
          tasks (state_of (Run b t d)) !! ID t = Some cid
      | _ =>
          exists pre mid post reply buf,
            trace_of (Run b t d) =
              pre ++ ContainerWait cid sel :: mid ++
                TasksDelete (ID t) :: Log (LogAttemptRemove cid) ::
                ContainerRemove cid remove_options reply :: post /\
            result_of (Run b t d) = Returned buf None /\
            count is_ContainerRemove post = 0%nat /\
            (forall e, reply = Some e -> In (Log (LogRemoveError cid e)) post)
      end).
Proof.
  split.
  - intros f. apply Run_result_ignores_removal.
  - intros cid sel. apply Run_after_wait.
Qed.

End RuntimeProperties.

(** ** The runtime's theorems at the daemon of [scenario] *)



(** A frame that the ceiling cuts in the middle is dropped without error. *)
Example scenario_big_frame :
  result_of (runtime.Run (scenario.backend (scenario.logs_of scenario.big_frame)
                            (runtime.FromStatusCh 0) None) scenario.t1 scenario.fresh)
  = runtime.Returned "" None.
Proof. vm_compute. reflexivity. Qed.

(** When [ContainerLogs] fails and hands back a nil reader, the deferred
    [out.Close()] panics, so the wrapped error is never returned. *)
Example scenario_logs_error_nil_reader :
  result_of (runtime.Run (scenario.backend (None, Some (Opaque "no such container"))
                            (runtime.FromStatusCh 0) None) scenario.t1 scenario.fresh)
  = runtime.Panicked.
Proof. vm_compute. reflexivity. Qed.

(** C5 as the claim states it, at a run whose wait step yields an error: the
    wait resolved, yet the backend is never asked to remove the container,
    the table is never touched again and still tracks the task. *)
Lemma Run_wait_error_skips_cleanup :
  In (runtime.ContainerWait "c-t1" (runtime.FromErrCh (Some (Opaque "wait failed"))))
     (trace_of scenario.wait_error_run) /\
  count runtime.is_ContainerRemove (trace_of scenario.wait_error_run) = 0%nat /\
  ~ In (runtime.TasksDelete "t1") (trace_of scenario.wait_error_run) /\
  runtime.tasks (state_of scenario.wait_error_run) !! "t1" = Some "c-t1" /\
  result_of scenario.wait_error_run
  = runtime.Returned "" (Some (Opaque "wait failed")).
Proof.
  repeat split; try (vm_compute; reflexivity).
  - vm_compute. tauto.
  - vm_compute. intuition discriminate.
Qed.

Lemma Run_cleanup_after_wait_witness :
  exists pre mid post reply buf,
    trace_of (runtime.Run (scenario.backend (scenario.logs_of scenario.hi_frame)
                             (runtime.FromStatusCh 0) (Some (Opaque "no such container")))
                          scenario.t1 scenario.fresh) =
      pre ++ runtime.ContainerWait "c-t1" (runtime.FromStatusCh 0) :: mid ++
        runtime.TasksDelete "t1" :: runtime.Log (runtime.LogAttemptRemove "c-t1") ::
        runtime.ContainerRemove "c-t1" runtime.remove_options reply :: post /\
    result_of (runtime.Run (scenario.backend (scenario.logs_of scenario.hi_frame)
                              (runtime.FromStatusCh 0) (Some (Opaque "no such container")))
                           scenario.t1 scenario.fresh) = runtime.Returned buf None /\
    count runtime.is_ContainerRemove post = 0%nat /\
    (forall e, reply = Some e -> In (runtime.Log (runtime.LogRemoveError "c-t1" e)) post).
Proof.
  apply (proj2 (Run_cleanup_after_wait
                  (scenario.backend (scenario.logs_of scenario.hi_frame)
                     (runtime.FromStatusCh 0) (Some (Opaque "no such container")))
                  scenario.t1 scenario.fresh)
               "c-t1" (runtime.FromStatusCh 0)).
  vm_compute. tauto.
Defined.

Lemma Stop_idempotent_witness :
  runtime.Stop (scenario.backend (scenario.logs_of scenario.hi_frame)
                  (runtime.FromStatusCh 0) None) scenario.t1 scenario.fresh
  = (None, scenario.fresh, []).
Proof.
  apply (proj1 (Stop_idempotent
                  (scenario.backend (scenario.logs_of scenario.hi_frame)
                     (runtime.FromStatusCh 0) None)
                  scenario.t1 scenario.fresh)).
  reflexivity.
Defined.


Lemma Stop_untracks_before_removal_witness :
  let b := scenario.backend (scenario.logs_of scenario.hi_frame)
             (runtime.FromStatusCh 0) (Some (Opaque "no such container")) in
  let d := {| runtime.tasks := {["t1" := "c-t1"]}; runtime.world := tt |} in
  result_of (runtime.Stop b scenario.t1 d) = Some (Opaque "no such container") /\
  trace_of (runtime.Stop b scenario.t1 d) =
    [runtime.TasksDelete "t1"; runtime.Log (runtime.LogAttemptRemove "c-t1");
     runtime.ContainerRemove "c-t1" runtime.remove_options
       (Some (Opaque "no such container"))] /\
  runtime.tasks (state_of (runtime.Stop b scenario.t1 d)) !! "t1" = None /\
  forall t', ID t' = "t1" ->
    runtime.Stop b t' (state_of (runtime.Stop b scenario.t1 d))
    = (None, state_of (runtime.Stop b scenario.t1 d), []).
Proof.
  apply (Stop_untracks_before_removal
           (scenario.backend (scenario.logs_of scenario.hi_frame)
              (runtime.FromStatusCh 0) (Some (Opaque "no such container")))
           scenario.t1
           {| runtime.tasks := {["t1" := "c-t1"]}; runtime.world := tt |}
           "c-t1" (Some (Opaque "no such container")) tt); reflexivity.
Defined.

(** * Further properties *)

Lemma count_app {E} (p : E -> bool) (l1 l2 : list E) :
  count p (l1 ++ l2) = (count p l1 + count p l2)%nat.
Proof. unfold count. rewrite List.filter_app, length_app. reflexivity. Qed.

Lemma count_cons {E} (p : E -> bool) (x : E) (l : list E) :
  count p (x :: l) = ((if p x then 1 else 0) + count p l)%nat.
Proof. unfold count. simpl. destruct (p x); reflexivity. Qed.

(** ** The task handler, on every path *)

Section HandlerOutcomes.
Variable W : Type.
Variable broker_Publish : Queue -> Task -> W -> option error * W.
Variable runtime_Run : Task -> W -> (string * option error) * W.
Variable time_Now : W -> Time * W.

Let handle := worker.handleTask W broker_Publish runtime_Run time_Now.

(** The four ways a call of [handleTask] can go. *)
Lemma handle_cases (t : Task) (w : W) :
  (TState t ≠ Scheduled /\
   handle t w = ((t, Some (CantStart (TState t))), w, []))
  \/ (TState t = Scheduled /\ exists started e w2,
        handle t w =
          ((worker.as_running started t, Some e), w2,
           [worker.Now started;
            worker.Publish QUEUE_STARTED (worker.as_running started t) (Some e)]))
  \/ (TState t = Scheduled /\ exists started finished result e perr w5,
        handle t w =
          ((worker.as_failed finished e (worker.as_running started t), perr), w5,
           [worker.Now started;
            worker.Publish QUEUE_STARTED (worker.as_running started t) None;
            worker.RunCall (worker.as_running started t) result (Some e);
            worker.Now finished;
            worker.Publish QUEUE_ERROR
              (worker.as_failed finished e (worker.as_running started t)) perr]))
  \/ (TState t = Scheduled /\ exists started finished result perr w5,
        handle t w =
          ((worker.as_completed finished result (worker.as_running started t), perr),
           w5,
           [worker.Now started;
            worker.Publish QUEUE_STARTED (worker.as_running started t) None;
            worker.RunCall (worker.as_running started t) result None;
            worker.Now finished;
            worker.Publish QUEUE_COMPLETED
              (worker.as_completed finished result (worker.as_running started t))
              perr])).
Proof.
  destruct (decide (TState t = Scheduled)) as [Hs | Hs].
  2: { left. split; [exact Hs |]. apply handle_unscheduled, Hs. }
  right.
  destruct (time_Now w) as [started w1] eqn:Hn.
  destruct (broker_Publish QUEUE_STARTED (worker.as_running started t) w1)
    as [[e|] w2] eqn:Hp.
  { left. split; [exact Hs |]. exists started, e, w2.
    exact (handle_started_fails W _ _ _ t w w1 w2 started e Hs Hn Hp). }
  right.
  destruct (runtime_Run (worker.as_running started t) w2) as [[result [e|]] w3] eqn:Hr;
    destruct (time_Now w3) as [finished w4] eqn:Hn'.
  - left. split; [exact Hs |].
    destruct (broker_Publish QUEUE_ERROR
                (worker.as_failed finished e (worker.as_running started t)) w4)
      as [perr w5] eqn:Hp'.
    exists started, finished, result, e, perr, w5.
    exact (handle_run_fails W _ _ _ t w w1 w2 w3 w4 w5 started finished result e perr
             Hs Hn Hp Hr Hn' Hp').
  - right. split; [exact Hs |].
    destruct (broker_Publish QUEUE_COMPLETED
                (worker.as_completed finished result (worker.as_running started t)) w4)
      as [perr w5] eqn:Hp'.
    exists started, finished, result, perr, w5.
    exact (handle_run_succeeds W _ _ _ t w w1 w2 w3 w4 w5 started finished result perr
             Hs Hn Hp Hr Hn' Hp').
Qed.

Ltac by_handle_cases t w :=
  destruct (handle_cases t w) as
    [ [Hs Heq]
    | [ [Hs (started & e & w2 & Heq)]
      | [ [Hs (started & finished & result & e & perr & w5 & Heq)]
        | [Hs (started & finished & result & perr & w5 & Heq)] ] ] ];
  rewrite Heq; simpl.

(** X1: whatever happens, [handleTask] does not leave a task Scheduled, so
    handing the task it left to [handleTask] again is rejected: nothing is
    called and the task stays as it is. *)
Theorem handleTask_twice_is_rejected (t : Task) (w : W) :
  TState (result_of (handle t w)).1 ≠ Scheduled /\
  handle (result_of (handle t w)).1 (state_of (handle t w)) =
    (((result_of (handle t w)).1,
      Some (CantStart (TState (result_of (handle t w)).1))),
     state_of (handle t w), []).
Proof.
  assert (Hns : TState (result_of (handle t w)).1 ≠ Scheduled).
  { by_handle_cases t w; [exact Hs | discriminate ..]. }
  split; [exact Hns |]. apply handle_unscheduled, Hns.
Qed.

(** X2: [handleTask] never changes what the task is to execute (ID, image,
    command, environment, memory limit, restart policy); it changes [Result]
    only when it leaves the task Completed and [Error] only when it leaves
    it Failed. *)
Theorem handleTask_keeps_execution_spec (t : Task) (w : W) :
  let t' := (result_of (handle t w)).1 in
  ID t' = ID t /\ Image t' = Image t /\ CMD t' = CMD t /\ Env t' = Env t /\
  Memory t' = Memory t /\ RestartPolicy t' = RestartPolicy t /\
  (Result t' = Result t \/ TState t' = Completed /\ TState t = Scheduled) /\
  (task.Error t' = task.Error t \/ TState t' = Failed /\ TState t = Scheduled).
Proof.
  by_handle_cases t w.
  all: repeat (split; [reflexivity |]).
  all: split;
    first [ left; reflexivity
          | right; split; [reflexivity | exact Hs] ].
Qed.

(** X3: for a Scheduled task that carries no completion or failure time,
    the call sets [StartedAt]; it sets [CompletedAt] exactly when it leaves
    the task Completed and [FailedAt] exactly when it leaves it Failed, so
    never both. *)
Theorem handleTask_timestamps (t : Task) (w : W) :
  TState t = Scheduled -> CompletedAt t = None -> FailedAt t = None ->
  let t' := (result_of (handle t w)).1 in
  is_Some (StartedAt t') /\
  (is_Some (CompletedAt t') <-> TState t' = Completed) /\
  (is_Some (FailedAt t') <-> TState t' = Failed) /\
  ~ (is_Some (CompletedAt t') /\ is_Some (FailedAt t')).
Proof.
  intros Hsched Hc Hf.
  by_handle_cases t w; [contradiction | ..]; rewrite ?Hc, ?Hf.
  all: split; [eexists; reflexivity |].
  all: repeat split.
  all: try (intros [x Hx]; discriminate Hx).
  all: try discriminate.
  all: try (intros _; eexists; reflexivity).
  all: try reflexivity.
  all: intros [[x Hx] [y Hy]]; discriminate.
Qed.

(** X4: the error [handleTask] returns is its own rejection, before any
    call, or the very error that the last [Publish] returned; it returns no
    error only after a publish to the completed or the error queue that
    succeeded. *)
Theorem handleTask_error_origin (t : Task) (w : W) :
  match (result_of (handle t w)).2 with
  | None =>
      exists q snap, (q = QUEUE_COMPLETED \/ q = QUEUE_ERROR) /\
        last (trace_of (handle t w)) = Some (worker.Publish q snap None)
  | Some e =>
      (e = CantStart (TState t) /\ TState t ≠ Scheduled /\ trace_of (handle t w) = [])
      \/ exists q snap,
           last (trace_of (handle t w)) = Some (worker.Publish q snap (Some e))
  end.
Proof.
  by_handle_cases t w.
  - left. auto.
  - right. eauto.
  - destruct perr; [right | ]; eauto.
  - destruct perr; [right | ]; eauto.
Qed.

(** X5: whatever [handleTask] publishes carries the state that goes with
    the queue (Running to started, Completed to completed, Failed to error),
    the task's ID and a start time; it never publishes to the default queue,
    and publishes at most twice. *)
Theorem handleTask_published_snapshots (t : Task) (w : W)
        (q : Queue) (snap : Task) (reply : option error) :
  In (worker.Publish q snap reply) (trace_of (handle t w)) ->
  q ≠ QUEUE_DEFAULT /\
  TState snap = match q with
                | QUEUE_STARTED => Running
                | QUEUE_COMPLETED => Completed
                | QUEUE_ERROR => Failed
                | QUEUE_DEFAULT => Scheduled
                end /\
  ID snap = ID t /\ is_Some (StartedAt snap) /\
  (count worker.is_Publish (trace_of (handle t w)) <= 2)%nat.
Proof.
  by_handle_cases t w; intros Hin.
  all: repeat (destruct Hin as [Hin | Hin]; [try discriminate |]);
    try contradiction.
  all: injection Hin as <- <- <-; repeat split; eauto; try discriminate.
  all: unfold count; simpl; lia.
Qed.

End HandlerOutcomes.

(** ** Starting the worker *)

Section SupervisorProperties.
Variable W : Type.
Variable uuid_NewUUID : W -> string * W.
Variable receive_signal : W -> worker.Signal * W.
Variable float64 : Type.
Variable getStats : W -> (worker.Stats float64 * option error) * W.

(** X6: when the broker refuses the subscription with [e], a worker made by
    [NewWorker] returns from [Start] an error that wraps [e] and reads
    "error subscribing for queue: worker-<uuid>: <message of e>"; it has
    subscribed to the default queue only, has not started the stats loop and
    has not waited for a signal. *)
Theorem Start_subscribe_error (cfg : worker.Config W) (w0 w1 w2 : W)
        (uuid : string) (e : error) :
  uuid_NewUUID w0 = (uuid, w1) ->
  worker.Broker_Subscribe (worker.Config_Broker cfg) QUEUE_DEFAULT w1 = (Some e, w2) ->
  let wk := (worker.NewWorker W uuid_NewUUID cfg w0).1 in
  exists err,
    result_of (worker.Start W receive_signal wk w1) = Some err /\
    err = Wrapf e ("error subscribing for queue: worker-" +:+ uuid) /\
    errors.Error err =
      "error subscribing for queue: worker-" +:+ uuid +:+ ": " +:+ errors.Error e /\
    trace_of (worker.Start W receive_signal wk w1) =
      [worker.LogStarting ("worker-" +:+ uuid);
       worker.Subscribed QUEUE_DEFAULT (Some e)] /\
    state_of (worker.Start W receive_signal wk w1) = w2.
Proof.
  intros Hu Hsub. unfold worker.NewWorker. rewrite Hu. simpl.
  unfold worker.Start, bind, emit, ret. simpl. rewrite Hsub. simpl.
  eexists. repeat split; reflexivity.
Qed.

(** X7: [Start] subscribes exactly once, to the default queue; it starts the
    stats loop and waits for a signal exactly when that subscription
    succeeded, which is also exactly when it returns no error. *)
Theorem Start_outcome (wk : worker.Worker W) (w : W) :
  let r := worker.Start W receive_signal wk w in
  count worker.is_Subscribed (trace_of r) = 1%nat /\
  (forall q reply, In (worker.Subscribed q reply) (trace_of r) ->
                   q = QUEUE_DEFAULT /\
                   (reply = None <-> result_of r = None)) /\
  count worker.is_GoCollectStats (trace_of r)
    = match result_of r with Some _ => 0 | None => 1 end%nat /\
  count worker.is_Received (trace_of r)
    = match result_of r with Some _ => 0 | None => 1 end%nat /\
  (result_of r = None ->
   last (trace_of r) = Some (worker.LogShuttingDown (worker.Name wk))).
Proof.
  unfold worker.Start, bind, emit, ret. simpl.
  destruct (worker.Broker_Subscribe (worker.broker wk) QUEUE_DEFAULT w)
    as [[e|] w1]; simpl.
  - repeat split; try reflexivity; try discriminate.
    all: destruct H as [H | [H | []]]; try discriminate H; injection H as <- <-;
      try reflexivity; try discriminate.
  - destruct (receive_signal w1) as [sig w2]. simpl.
    repeat split; try reflexivity.
    all: repeat (destruct H as [H | H]; [try discriminate H |]);
      try contradiction; injection H as <- <-; reflexivity.
Qed.

Lemma collectStats_round_trace (wk : worker.Worker W) (w : W) :
  exists ev,
    trace_of (worker.collectStats_round W float64 getStats wk w)
      = [ev; worker.Sleep float64 60000000000] /\
    worker.is_Sleep float64 ev = false /\
    worker.is_LogStats float64 ev = negb (worker.is_LogStatsError float64 ev).
Proof.
  unfold worker.collectStats_round, bind, emit. simpl.
  destruct (getStats w) as [[s [e|]] w']; simpl; eexists; repeat split; reflexivity.
Qed.

Lemma collectStats_rounds_S (n : nat) (wk : worker.Worker W) (w : W) :
  trace_of (worker.collectStats_rounds W float64 getStats (S n) wk w) =
    trace_of (worker.collectStats_round W float64 getStats wk w) ++
    trace_of (worker.collectStats_rounds W float64 getStats n wk
                (state_of (worker.collectStats_round W float64 getStats wk w))).
Proof.
  simpl. unfold bind at 1.
  destruct (worker.collectStats_round W float64 getStats wk w) as [[u w1] tr1].
  destruct (worker.collectStats_rounds W float64 getStats n wk w1) as [[u' w2] tr2]
    eqn:Hrest.
  unfold trace_of, state_of. simpl. rewrite Hrest. reflexivity.
Qed.

(** X8: the stats loop goes on whatever [getStats] answers: its first [n]
    rounds write [n] log lines, one per round, and sleep [n] times, each
    time for one minute. *)
Theorem collectStats_rounds_trace (n : nat) (wk : worker.Worker W) (w : W) :
  let tr := trace_of (worker.collectStats_rounds W float64 getStats n wk w) in
  count (worker.is_Sleep float64) tr = n /\
  (count (worker.is_LogStats float64) tr
   + count (worker.is_LogStatsError float64) tr = n)%nat /\
  length tr = (2 * n)%nat /\
  forall d, In (worker.Sleep float64 d) tr -> d = 60000000000.
Proof.
  revert w. induction n as [|n IH]; intros w.
  - simpl. repeat split; intros d [].
  - cbv zeta in IH |- *. rewrite collectStats_rounds_S.
    destruct (collectStats_round_trace wk w) as (ev & -> & Hev1 & Hev2).
    destruct (IH (state_of (worker.collectStats_round W float64 getStats wk w)))
      as (IHs & IHl & IHn & IHd).
    rewrite !count_app, length_app, IHs, IHn.
    rewrite !count_cons, Hev1, Hev2.
    change (count _ []) with 0%nat.
    change (worker.is_Sleep float64 (worker.Sleep float64 60000000000)) with true.
    change (worker.is_LogStats float64 (worker.Sleep float64 60000000000)) with false.
    change (worker.is_LogStatsError float64 (worker.Sleep float64 60000000000))
      with false.
    split; [reflexivity |]. split.
    + destruct (worker.is_LogStatsError float64 ev); simpl; lia.
    + split; [simpl; lia |].
      intros d [H | [H | H]].
      * subst ev. discriminate Hev1.
      * congruence.
      * apply IHd, H.
Qed.

End SupervisorProperties.

(** ** The version *)

Lemma string_length_append (a b : string) :
  String.length (a +:+ b) = (String.length a + String.length b)%nat.
Proof.
  induction a as [|x a IH]; [reflexivity |].
  change (String x a +:+ b) with (String x (a +:+ b)). simpl. now rewrite IH.
Qed.

Lemma append_inj_r (a b c : string) : a +:+ c = b +:+ c -> a = b.
Proof.
  intros H.
  assert (Hlen : String.length a = String.length b).
  { apply (f_equal String.length) in H. rewrite !string_length_append in H. lia. }
  revert b H Hlen. induction a as [|x a IH]; intros [|y b] H Hlen;
    try discriminate Hlen; [reflexivity |].
  change (String x (a +:+ c) = String y (b +:+ c)) in H.
  injection H as -> H. f_equal. apply IH; [exact H |].
  simpl in Hlen. lia.
Qed.

Lemma prefix_append (a b : string) : String.prefix a (a +:+ b) = true.
Proof.
  induction a as [|x a IH].
  { change ("" +:+ b) with b. destruct b; reflexivity. }
  change (String x a +:+ b) with (String x (a +:+ b)). simpl.
  destruct (Ascii.ascii_dec x x) as [_ | Hne]; [exact IH | now destruct Hne].
Qed.

(** X9: the formatted version is the version number, then the commit
    between parentheses: it is nine bytes longer than the commit and two
    commits that differ give texts that differ. *)
Theorem FormattedVersion_shape (c c' : string) :
  String.length (tork.FormattedVersion c) = (9 + String.length c)%nat /\
  String.prefix (tork.Version +:+ " (") (tork.FormattedVersion c) = true /\
  (tork.FormattedVersion c = tork.FormattedVersion c' -> c = c').
Proof.
  assert (Hfv : forall x, tork.FormattedVersion x = "0.1.34 (" +:+ (x +:+ ")"))
    by reflexivity.
  repeat split.
  - rewrite Hfv, !string_length_append. simpl. lia.
  - rewrite Hfv. apply prefix_append.
  - rewrite !Hfv. intros H. apply (inj _) in H. apply (append_inj_r c c' ")"), H.
Qed.

(** ** The Docker runtime, on every path *)

Ltac backend_reply :=
  match goal with
  | |- context [runtime.client_ImagePull ?b ?i ?w] =>
      destruct (runtime.client_ImagePull b i w) as [[[?|] [?|]] ?] eqn:?
  | |- context [runtime.io_Copy_Stdout ?b ?s ?w] =>
      destruct (runtime.io_Copy_Stdout b s w) as [[?|] ?] eqn:?
  | |- context [runtime.client_ContainerCreate ?b ?c ?h ?n ?w] =>
      destruct (runtime.client_ContainerCreate b c h n w) as [[? [?|]] ?] eqn:?
  | |- context [runtime.client_ContainerStart ?b ?c ?w] =>
      destruct (runtime.client_ContainerStart b c w) as [[?|] ?] eqn:?
  | |- context [runtime.client_ContainerLogs ?b ?c ?o ?w] =>
      destruct (runtime.client_ContainerLogs b c o w) as [[[?|] [?|]] ?] eqn:?
  | |- context [runtime.stdcopy_StdCopy ?b ?s] =>
      destruct (runtime.stdcopy_StdCopy b s) as [? [?|]] eqn:?
  | |- context [runtime.client_ContainerWait ?b ?c ?w] =>
      destruct (runtime.client_ContainerWait b c w) as [[[?|]|?] ?] eqn:?
  | |- context [runtime.client_ContainerRemove ?b ?c ?o ?w] =>
      destruct (runtime.client_ContainerRemove b c o w) as [[?|] ?] eqn:?
  | |- context [runtime.close_reply ?rc] =>
      destruct (runtime.close_reply rc) as [?|] eqn:?
  end;
  simpl; rewrite ?lookup_insert_eq; simpl.

Ltac every_Run :=
  unfold result_of, state_of, trace_of,
    runtime.Run, runtime.Run_capture, runtime.deferred_close, runtime.Stop,
    runtime.call, runtime.tasks_lookup, runtime.tasks_store,
    runtime.tasks_delete, runtime.log, emit, bind, ret;
  simpl; repeat backend_reply.

Ltac find_event := simpl; repeat (first [left; reflexivity | right]).

Ltac which_event H :=
  simpl in H;
  repeat (destruct H as [H | H]; [try discriminate H |]);
  try contradiction.

Section RuntimeOutcomes.
Import runtime.
Context {W : Type}.
Implicit Types (b : Backend W) (d : DockerRuntime W) (t : Task).

(** X10: [NewDockerRuntime] gives either the client's error and no runtime,
    or a runtime that tracks nothing: on it, [Stop] of any task calls
    nothing and returns no error. *)
Theorem NewDockerRuntime_tracks_nothing (dc : W) (err : option error) :
  match NewDockerRuntime dc err with
  | (Some d, None) =>
      err = None /\ tasks d = ∅ /\ world d = dc /\
      forall b t, Stop b t d = (None, d, [])
  | (None, Some e) => err = Some e
  | _ => False
  end.
Proof.
  destruct err as [e|]; simpl; [reflexivity |].
  do 3 (split; [reflexivity |]).
  intros b t. apply Stop_untracked. apply lookup_empty.
Qed.

(** X11: [Run] for a task never touches the table entry of another ID. *)
Theorem Run_keeps_other_entries b t d (id : string) :
  id ≠ ID t ->
  tasks (state_of (Run b t d)) !! id = tasks d !! id.
Proof.
  intros Hne. every_Run.
  all: rewrite ?lookup_delete_ne, ?lookup_insert_ne by congruence; reflexivity.
Qed.

(** X12: [Stop] for a task never touches the table entry of another ID, asks
    for at most one removal, and only for the container the table holds for
    the task, forced and with its volumes; what the removal answers is what
    [Stop] returns. *)
Theorem Stop_removes_only_its_container b t d :
  (forall id, id ≠ ID t -> tasks (state_of (Stop b t d)) !! id = tasks d !! id) /\
  (count is_ContainerRemove (trace_of (Stop b t d)) <= 1)%nat /\
  (forall cid opts reply,
      In (ContainerRemove cid opts reply) (trace_of (Stop b t d)) ->
      tasks d !! ID t = Some cid /\
      types.Force opts = true /\ types.RemoveVolumes opts = true /\
      types.RemoveLinks opts = false /\
      result_of (Stop b t d) = reply).
Proof.
  destruct (tasks d !! ID t) as [cid|] eqn:Hl.
  - destruct (client_ContainerRemove b cid remove_options (world d)) as [r w'] eqn:Hr.
    rewrite (Stop_tracked b t d cid r w' Hl Hr). simpl. repeat split.
    + intros id Hne. apply lookup_delete_ne. congruence.
    + unfold count. simpl. lia.
    + which_event H. congruence.
    + which_event H. injection H as <- <- <-. reflexivity.
    + which_event H. injection H as <- <- <-. reflexivity.
    + which_event H. injection H as <- <- <-. reflexivity.
    + which_event H. injection H as <- <- <-. reflexivity.
  - rewrite (Stop_untracked b t d Hl). simpl. repeat split; try contradiction.
    unfold count. simpl. lia.
Qed.

(** X13: whenever [Run] returns an error, its result string is empty and it
    has not asked for any removal: if a container was created, the task is
    still tracked with it. *)
Theorem Run_error_leaves_container b t d (r : string) (e : error) :
  result_of (Run b t d) = Returned r (Some e) ->
  r = "" /\
  count is_ContainerRemove (trace_of (Run b t d)) = 0%nat /\
  (forall cc hc name, In (ContainerCreate cc hc name) (trace_of (Run b t d)) ->
     tasks (state_of (Run b t d)) !! ID t = tasks d !! ID t
     \/ exists cid, In (TasksStore (ID t) cid) (trace_of (Run b t d)) /\
                    tasks (state_of (Run b t d)) !! ID t = Some cid).
Proof.
  every_Run; try discriminate.
  all: intros [= <- <-]; repeat split.
  all: intros cc hc name Hin; which_event Hin.
  all: first [ left; reflexivity
             | right; eexists; split;
               [| first [reflexivity | apply lookup_insert_eq]];
               simpl; repeat (first [left; reflexivity | right]) ].
Qed.

(** X14: when [Run] returns without error, it made exactly these calls, in
    this order: pull, copy to stdout, create under the task's ID, record the
    container, start, logs, wait, delete the record, remove that container,
    close the logs; and the task is no longer tracked. *)
Theorem Run_success_calls b t d (r : string) :
  result_of (Run b t d) = Returned r None ->
  exists cc hc cid opts sel reply creply,
    calls (trace_of (Run b t d)) =
      [ImagePull (Image t); CopyToStdout; ContainerCreate cc hc (ID t);
       TasksStore (ID t) cid; ContainerStart cid; ContainerLogs cid opts;
       ContainerWait cid sel; TasksDelete (ID t);
       ContainerRemove cid remove_options reply; CloseLogs creply] /\
    (forall e, sel ≠ FromErrCh (Some e)) /\
    tasks (state_of (Run b t d)) !! ID t = None.
Proof.
  every_Run; try discriminate.
  all: intros _; do 7 eexists; split; [reflexivity |].
  all: split; [intros e'; discriminate | apply lookup_delete_eq].
Qed.

(** X15: the container [Run] asks for is named after the task's ID and is
    made from the task: its image and command, one NAME=VALUE entry for each
    key of its environment and nothing else, its memory limit and restart
    policy, with all ports published. *)
Theorem Run_create_request b t d
        (cc : container.Config) (hc : container.HostConfig) (name : string) :
  In (ContainerCreate cc hc name) (trace_of (Run b t d)) ->
  name = ID t /\
  container.Image cc = Image t /\
  container.Cmd cc = CMD t /\
  (forall s, s ∈ container.Env cc <->
             exists n v, Env t !! n = Some v /\ s = n +:+ "=" +:+ v) /\
  length (container.Env cc) = size (Env t) /\
  container.Memory (container.hcResources hc) = Memory t /\
  container.Name (container.hcRestartPolicy hc) = RestartPolicy t /\
  container.PublishAllPorts hc = true.
Proof.
  intros Hin.
  assert (Heq : cc = {| container.Image := Image t;
                        container.Env :=
                          (fun nv : string * string => nv.1 +:+ "=" +:+ nv.2)
                            <$> map_to_list (Env t);
                        container.Cmd := CMD t |} /\
                hc = {| container.hcRestartPolicy :=
                          {| container.Name := RestartPolicy t |};
                        container.hcResources :=
                          {| container.Memory := Memory t |};
                        container.PublishAllPorts := true |} /\
                name = ID t).
  { revert Hin. every_Run.
    all: intros Hin; which_event Hin.
    all: injection Hin as <- <- <-; repeat split. }
  destruct Heq as (-> & -> & ->). simpl. repeat split; try reflexivity.
  - intros Hs. apply list_elem_of_fmap in Hs as ([n v] & -> & Hnv).
    apply elem_of_map_to_list in Hnv. exists n, v. split; [exact Hnv | reflexivity].
  - intros (n & v & Hnv & ->). apply list_elem_of_fmap.
    exists (n, v). split; [reflexivity |]. apply elem_of_map_to_list, Hnv.
  - rewrite length_fmap. apply length_map_to_list.
Qed.

(** X16: a [Run] that returns, with a result or with an error, has closed
    the log reader if it opened it: exactly once, and as its last call. *)
Theorem Run_closes_logs b t d (r : string) (err : option error)
        (cid : string) (opts : types.ContainerLogsOptions) :
  result_of (Run b t d) = Returned r err ->
  In (ContainerLogs cid opts) (trace_of (Run b t d)) ->
  count is_CloseLogs (trace_of (Run b t d)) = 1%nat /\
  count is_ContainerLogs (trace_of (Run b t d)) = 1%nat /\
  exists creply, last (calls (trace_of (Run b t d))) = Some (CloseLogs creply).
Proof.
  every_Run; try discriminate.
  all: intros _ Hin; which_event Hin.
  all: repeat split; eexists; reflexivity.
Qed.

(** X17: if [ContainerLogs] hands back no reader, as when it fails, [Run]
    panics in its deferred [Close]: the error of the logs call is never
    returned. *)
Theorem Run_nil_log_reader_panics b t d
        (cid : string) (opts : types.ContainerLogsOptions) :
  (forall id o w, (client_ContainerLogs b id o w).1.1 = None) ->
  In (ContainerLogs cid opts) (trace_of (Run b t d)) ->
  result_of (Run b t d) = Panicked.
Proof.
  intros Hnil. every_Run.
  all: try match goal with
       | H : client_ContainerLogs _ ?i ?o ?w = (Some _, _, _) |- _ =>
           specialize (Hnil i o w); rewrite H in Hnil; discriminate Hnil
       end.
  all: intros Hin; which_event Hin; reflexivity.
Qed.

(** X18: when starting the container fails, which is the one way [Run] ends
    on its start call, [Run] returns the cause wrapped in a message that
    names the container and repeats the cause's text; the task stays tracked
    with the created container, and a [Stop] that follows asks to remove
    exactly that container. *)
Theorem Run_start_failure_then_Stop b t d (cid : string) :
  last (trace_of (Run b t d)) = Some (ContainerStart cid) ->
  exists cause,
    result_of (Run b t d) =
      Returned "" (Some (Wrapf cause
        ("error starting container " +:+ cid +:+ ": " +:+ errors.Error cause +:+ LF))) /\
    tasks (state_of (Run b t d)) !! ID t = Some cid /\
    exists reply,
      trace_of (Stop b t (state_of (Run b t d))) =
        [TasksDelete (ID t); Log (LogAttemptRemove cid);
         ContainerRemove cid remove_options reply] /\
      result_of (Stop b t (state_of (Run b t d))) = reply.
Proof.
  intros Hlast.
  assert (H : exists cause,
             result_of (Run b t d) =
               Returned "" (Some (Wrapf cause
                 ("error starting container " +:+ cid +:+ ": "
                  +:+ errors.Error cause +:+ LF))) /\
             tasks (state_of (Run b t d)) !! ID t = Some cid).
  { revert Hlast. every_Run; try discriminate.
    intros [= <-]. eexists. split; reflexivity. }
  destruct H as (cause & Hres & Htr). exists cause. split; [exact Hres |].
  split; [exact Htr |].
  destruct (client_ContainerRemove b cid remove_options
              (world (state_of (Run b t d)))) as [reply w'] eqn:Hr.
  exists reply. rewrite (Stop_tracked b t _ cid reply w' Htr Hr). split; reflexivity.
Qed.

End RuntimeOutcomes.

(** ** The further properties at the collaborators of [scenario] *)

Lemma handleTask_timestamps_witness :
  let t' := (result_of (scenario.handleTask [] ("hi", None) scenario.t1 0)).1 in
  is_Some (StartedAt t') /\
  (is_Some (CompletedAt t') <-> TState t' = Completed) /\
  (is_Some (FailedAt t') <-> TState t' = Failed) /\
  ~ (is_Some (CompletedAt t') /\ is_Some (FailedAt t')).
Proof.
  apply (handleTask_timestamps Z (scenario.broker_Publish [])
           (scenario.runtime_Run ("hi", None)) scenario.time_Now scenario.t1 0);
    reflexivity.
Defined.

Lemma handleTask_published_snapshots_witness :
  QUEUE_COMPLETED ≠ QUEUE_DEFAULT /\
  TState (worker.as_completed 1 "hi" (worker.as_running 0 scenario.t1)) = Completed /\
  ID (worker.as_completed 1 "hi" (worker.as_running 0 scenario.t1)) = ID scenario.t1 /\
  is_Some (StartedAt (worker.as_completed 1 "hi" (worker.as_running 0 scenario.t1))) /\
  (count worker.is_Publish
     (trace_of (scenario.handleTask [] ("hi", None) scenario.t1 0%Z)) <= 2)%nat.
Proof.
  apply (handleTask_published_snapshots Z (scenario.broker_Publish [])
           (scenario.runtime_Run ("hi", None)) scenario.time_Now scenario.t1 0
           QUEUE_COMPLETED
           (worker.as_completed 1 "hi" (worker.as_running 0 scenario.t1)) None).
  vm_compute. tauto.
Defined.

Lemma Start_subscribe_error_witness :
  exists err,
    result_of (worker.Start Z scenario.receive_signal
                 (worker.NewWorker Z scenario.uuid_NewUUID
                    (scenario.config [] (Some (Opaque "broker unreachable")) ("", None))
                    0).1 0) = Some err /\
    err = Wrapf (Opaque "broker unreachable")
                ("error subscribing for queue: worker-" +:+ "4b3c") /\
    errors.Error err =
      "error subscribing for queue: worker-" +:+ "4b3c" +:+ ": "
        +:+ errors.Error (Opaque "broker unreachable") /\
    trace_of (worker.Start Z scenario.receive_signal
                (worker.NewWorker Z scenario.uuid_NewUUID
                   (scenario.config [] (Some (Opaque "broker unreachable")) ("", None))
                   0).1 0) =
      [worker.LogStarting ("worker-" +:+ "4b3c");
       worker.Subscribed QUEUE_DEFAULT (Some (Opaque "broker unreachable"))] /\
    state_of (worker.Start Z scenario.receive_signal
                (worker.NewWorker Z scenario.uuid_NewUUID
                   (scenario.config [] (Some (Opaque "broker unreachable")) ("", None))
                   0).1 0) = 0.
Proof.
  apply (Start_subscribe_error Z scenario.uuid_NewUUID scenario.receive_signal
           (scenario.config [] (Some (Opaque "broker unreachable")) ("", None))
           0 0 0 "4b3c" (Opaque "broker unreachable")); reflexivity.
Defined.

Lemma Start_outcome_witness :
  QUEUE_DEFAULT = QUEUE_DEFAULT /\
  (@None error = None <->
   result_of (worker.Start Z scenario.receive_signal
                (worker.NewWorker Z scenario.uuid_NewUUID
                   (scenario.config [] None ("", None)) 0).1 0) = None).
Proof.
  apply (proj1 (proj2 (Start_outcome Z scenario.receive_signal
                         (worker.NewWorker Z scenario.uuid_NewUUID
                            (scenario.config [] None ("", None)) 0).1 0))
               QUEUE_DEFAULT None).
  vm_compute. tauto.
Defined.

Lemma collectStats_rounds_trace_witness : 60000000000 = 60000000000.
Proof.
  apply (proj2 (proj2 (proj2
           (collectStats_rounds_trace Z Z scenario.getStats 3
              (worker.NewWorker Z scenario.uuid_NewUUID
                 (scenario.config [] None ("", None)) 0).1 0)))
           60000000000).
  vm_compute. tauto.
Defined.

Lemma FormattedVersion_shape_witness : "develop" = "develop".
Proof.
  apply (proj2 (proj2 (FormattedVersion_shape "develop" "develop"))).
  reflexivity.
Defined.

Lemma Run_keeps_other_entries_witness :
  runtime.tasks
    (state_of (runtime.Run (scenario.backend (scenario.logs_of scenario.hi_frame)
                              (runtime.FromStatusCh 0) None)
                           scenario.t1 scenario.two_tracked)) !! "t2"
  = runtime.tasks scenario.two_tracked !! "t2".
Proof.
  apply (Run_keeps_other_entries
           (scenario.backend (scenario.logs_of scenario.hi_frame)
              (runtime.FromStatusCh 0) None) scenario.t1 scenario.two_tracked "t2").
  simpl. discriminate.
Defined.

Lemma Stop_removes_only_its_container_witness :
  runtime.tasks scenario.two_tracked !! ID scenario.t1 = Some "c-old" /\
  types.Force runtime.remove_options = true /\
  types.RemoveVolumes runtime.remove_options = true /\
  types.RemoveLinks runtime.remove_options = false /\
  result_of (runtime.Stop (scenario.backend (scenario.logs_of scenario.hi_frame)
                             (runtime.FromStatusCh 0) None)
                          scenario.t1 scenario.two_tracked) = None.
Proof.
  apply (proj2 (proj2 (Stop_removes_only_its_container
                         (scenario.backend (scenario.logs_of scenario.hi_frame)
                            (runtime.FromStatusCh 0) None)
                         scenario.t1 scenario.two_tracked))
               "c-old" runtime.remove_options None).
  vm_compute. tauto.
Defined.

Lemma Run_error_leaves_container_witness :
  "" = "" /\
  count runtime.is_ContainerRemove
    (trace_of (runtime.Run scenario.backend_start_fails scenario.t1 scenario.fresh))
    = 0%nat /\
  (forall cc hc name,
      In (runtime.ContainerCreate cc hc name)
         (trace_of (runtime.Run scenario.backend_start_fails scenario.t1 scenario.fresh)) ->
      runtime.tasks
        (state_of (runtime.Run scenario.backend_start_fails scenario.t1 scenario.fresh))
        !! ID scenario.t1 = runtime.tasks scenario.fresh !! ID scenario.t1
      \/ exists cid,
           In (runtime.TasksStore (ID scenario.t1) cid)
              (trace_of (runtime.Run scenario.backend_start_fails scenario.t1
                           scenario.fresh)) /\
           runtime.tasks
             (state_of (runtime.Run scenario.backend_start_fails scenario.t1
                          scenario.fresh))
             !! ID scenario.t1 = Some cid).
Proof.
  apply (Run_error_leaves_container scenario.backend_start_fails scenario.t1
           scenario.fresh ""
           (Wrapf (Opaque "no such image")
              ("error starting container " +:+ "c-t1" +:+ ": " +:+ "no such image"
               +:+ runtime.LF))).
  vm_compute. reflexivity.
Defined.

Lemma Run_success_calls_witness :
  exists cc hc cid opts sel reply creply,
    runtime.calls
      (trace_of (runtime.Run (scenario.backend (scenario.logs_of scenario.hi_frame)
                                (runtime.FromStatusCh 0) None)
                             scenario.t1 scenario.fresh)) =
      [runtime.ImagePull (Image scenario.t1); runtime.CopyToStdout;
       runtime.ContainerCreate cc hc (ID scenario.t1);
       runtime.TasksStore (ID scenario.t1) cid; runtime.ContainerStart cid;
       runtime.ContainerLogs cid opts; runtime.ContainerWait cid sel;
       runtime.TasksDelete (ID scenario.t1);
       runtime.ContainerRemove cid runtime.remove_options reply;
       runtime.CloseLogs creply] /\
    (forall e, sel ≠ runtime.FromErrCh (Some e)) /\
    runtime.tasks
      (state_of (runtime.Run (scenario.backend (scenario.logs_of scenario.hi_frame)
                                (runtime.FromStatusCh 0) None)
                             scenario.t1 scenario.fresh)) !! ID scenario.t1 = None.
Proof.
  apply (Run_success_calls (scenario.backend (scenario.logs_of scenario.hi_frame)
                              (runtime.FromStatusCh 0) None)
                           scenario.t1 scenario.fresh ("hi" +:+ runtime.LF)).
  vm_compute. reflexivity.
Defined.

Lemma Run_create_request_witness :
  let cc := {| container.Image := "alpine";
               container.Env := ["A=1"; "B=2"];
               container.Cmd := ["env"] |} in
  let hc := {| container.hcRestartPolicy := {| container.Name := "no" |};
               container.hcResources := {| container.Memory := 1024 |};
               container.PublishAllPorts := true |} in
  "t3" = ID scenario.t_env /\
  container.Image cc = Image scenario.t_env /\
  container.Cmd cc = CMD scenario.t_env /\
  (forall s, s ∈ container.Env cc <->
             exists n v, Env scenario.t_env !! n = Some v /\ s = n +:+ "=" +:+ v) /\
  length (container.Env cc) = size (Env scenario.t_env) /\
  container.Memory (container.hcResources hc) = Memory scenario.t_env /\
  container.Name (container.hcRestartPolicy hc) = RestartPolicy scenario.t_env /\
  container.PublishAllPorts hc = true.
Proof.
  apply (Run_create_request
           (scenario.backend (scenario.logs_of scenario.hi_frame)
              (runtime.FromStatusCh 0) None) scenario.t_env scenario.fresh).
  vm_compute. tauto.
Defined.

Lemma Run_closes_logs_witness :
  count runtime.is_CloseLogs
    (trace_of (runtime.Run (scenario.backend (scenario.logs_of scenario.hi_frame)
                              (runtime.FromStatusCh 0) None)
                           scenario.t1 scenario.fresh)) = 1%nat /\
  count runtime.is_ContainerLogs
    (trace_of (runtime.Run (scenario.backend (scenario.logs_of scenario.hi_frame)
                              (runtime.FromStatusCh 0) None)
                           scenario.t1 scenario.fresh)) = 1%nat /\
  exists creply,
    last (runtime.calls
            (trace_of (runtime.Run (scenario.backend (scenario.logs_of scenario.hi_frame)
                                      (runtime.FromStatusCh 0) None)
                                   scenario.t1 scenario.fresh)))
    = Some (runtime.CloseLogs creply).
Proof.
  apply (Run_closes_logs (scenario.backend (scenario.logs_of scenario.hi_frame)
                            (runtime.FromStatusCh 0) None)
                         scenario.t1 scenario.fresh ("hi" +:+ runtime.LF) None "c-t1"
                         {| types.ShowStdout := true; types.ShowStderr := true |}).
  - vm_compute. reflexivity.
  - vm_compute. tauto.
Defined.

Lemma Run_nil_log_reader_panics_witness :
  result_of (runtime.Run (scenario.backend (None, Some (Opaque "no such container"))
                            (runtime.FromStatusCh 0) None)
                         scenario.t1 scenario.fresh) = runtime.Panicked.
Proof.
  apply (Run_nil_log_reader_panics
           (scenario.backend (None, Some (Opaque "no such container"))
              (runtime.FromStatusCh 0) None)
           scenario.t1 scenario.fresh "c-t1"
           {| types.ShowStdout := true; types.ShowStderr := true |}).
  - intros id o w. reflexivity.
  - vm_compute. tauto.
Defined.

Lemma Run_start_failure_then_Stop_witness :
  exists cause,
    result_of (runtime.Run scenario.backend_start_fails scenario.t1 scenario.fresh) =
      runtime.Returned "" (Some (Wrapf cause
        ("error starting container " +:+ "c-t1" +:+ ": " +:+ errors.Error cause
         +:+ runtime.LF))) /\
    runtime.tasks
      (state_of (runtime.Run scenario.backend_start_fails scenario.t1 scenario.fresh))
      !! ID scenario.t1 = Some "c-t1" /\
    exists reply,
      trace_of (runtime.Stop scenario.backend_start_fails scenario.t1
                  (state_of (runtime.Run scenario.backend_start_fails scenario.t1
                               scenario.fresh))) =
        [runtime.TasksDelete (ID scenario.t1);
         runtime.Log (runtime.LogAttemptRemove "c-t1");
         runtime.ContainerRemove "c-t1" runtime.remove_options reply] /\
      result_of (runtime.Stop scenario.backend_start_fails scenario.t1
                   (state_of (runtime.Run scenario.backend_start_fails scenario.t1
                                scenario.fresh))) = reply.
Proof.
  apply (Run_start_failure_then_Stop scenario.backend_start_fails scenario.t1
           scenario.fresh "c-t1").
  vm_compute. reflexivity.
Defined.
